(** * Access control of the secure file manager

    A shallow embedding of [filemanager/models.py] and of the views of
    [filemanager/views.py] that decide or change who may reach a file:
    [can_access_file], [edit_file], [share_file], [remove_access] and the
    query of [shared_files].

    The relational store is a record of tables, a table is the list of its
    rows, and a view is a computation in a small state-and-exception monad
    over that store, so that both "returns False" and "raises" are visible
    in the result and every write to a table is visible in the final
    store. *)

From Stdlib Require Import List Ascii String ZArith Bool Lia.
From Stdlib Require DecimalString DecimalPos DecimalZ.
Import ListNotations.

Local Open Scope Z_scope.

(** ** Models *)

Module Models.

(** [accounts.models.CustomUser]: the columns the file manager reads.
    [full_name] is what the framework's [get_full_name()] returns. *)
Record User := {
  user_id : Z;
  email : string;
  is_verified : bool;
  full_name : string
}.

(** [filemanager.models.UserFile].  [owner] and [category] are foreign
    keys, stored as the primary key they point to.  The stored upload, its
    size and type and the two timestamps are left out: nothing below reads
    them. *)
Record UserFile := {
  file_id : Z;
  name : string;
  description : string;
  owner : Z;
  category : option Z;
  visibility : string;
  is_favorite : bool;
  download_count : Z
}.

(** [filemanager.models.FileAccess].  [permission] is a [CharField]: the
    choices are not checked when a row is saved, so it is a string here.
    [expires_at] is nullable; a timestamp is a point on the integer time
    line. *)
Record FileAccess := {
  access_id : Z;
  access_file : Z;
  access_user : Z;
  permission : string;
  granted_by : Z;
  expires_at : option Z
}.

(** [filemanager.models.FileActivity]. *)
Record FileActivity := {
  activity_file : Z;
  activity_user : Z;
  action : string;
  ip_address : option string
}.

End Models.
Export Models.

(** ** The store and the monad of views *)

Module Orm.

(** The tables, the counter the store draws [FileAccess] primary keys
    from, and the wall clock read by [timezone.now()]. *)
Record World := {
  users : list User;
  files : list UserFile;
  accesses : list FileAccess;
  activities : list FileActivity;
  next_access_id : Z;
  clock : Z
}.

Inductive Exn :=
| DoesNotExist
| MultipleObjectsReturned
| IntegrityError
| ValidationError
| Http404.

Definition Exn_eqb (a b : Exn) : bool :=
  match a, b with
  | DoesNotExist, DoesNotExist
  | MultipleObjectsReturned, MultipleObjectsReturned
  | IntegrityError, IntegrityError
  | ValidationError, ValidationError
  | Http404, Http404 => true
  | _, _ => false
  end.

Inductive Result (A : Type) :=
| Ok (a : A)
| Raise (e : Exn).
Arguments Ok {A} a.
Arguments Raise {A} e.

Definition M (A : Type) : Type := World -> Result A * World.

Definition ret {A} (a : A) : M A := fun w => (Ok a, w).

Definition raise {A} (e : Exn) : M A := fun w => (Raise e, w).

Definition bind {A B} (c : M A) (k : A -> M B) : M B :=
  fun w =>
    match c w with
    | (Ok a, w') => k a w'
    | (Raise e, w') => (Raise e, w')
    end.

(** [try: body / except e: handler]. Any other exception goes through. *)
Definition try_except {A} (body : M A) (e : Exn) (handler : M A) : M A :=
  fun w =>
    match body w with
    | (Ok a, w') => (Ok a, w')
    | (Raise e', w') => if Exn_eqb e' e then handler w' else (Raise e', w')
    end.

Definition reads {A} (f : World -> A) : M A := fun w => (Ok (f w), w).

Definition writes (f : World -> World) : M unit := fun w => (Ok tt, f w).

(** [QuerySet.get]: the one row that passes the filter. *)
Definition get {A} (rows : list A) (P : A -> bool) : Result A :=
  match filter P rows with
  | [] => Raise DoesNotExist
  | [x] => Ok x
  | _ :: _ :: _ => Raise MultipleObjectsReturned
  end.

Definition timezone_now : M Z := reads clock.

End Orm.
Export Orm.

Notation "x <- c ;; k" := (bind c (fun x => k))
  (at level 61, c at next level, right associativity).
Notation "c ;;; k" := (bind c (fun _ => k))
  (at level 61, right associativity).

(** ** [can_access_file] *)

(** Python's [x in [a, b, ...]] on strings. *)
Definition contains (l : list string) (x : string) : bool :=
  existsb (fun y => String.eqb y x) l.

(** The filter of [FileAccess.objects.get(file=file_obj, user=user)]. *)
Definition grant_of (file_obj : UserFile) (user : User) (a : FileAccess) : bool :=
  (access_file a =? file_id file_obj) && (access_user a =? user_id user).

(** [access.expires_at and access.expires_at < timezone.now()]: the clock
    is read only when the column is not null. *)
Definition has_expired (access : FileAccess) : M bool :=
  match expires_at access with
  | None => ret false
  | Some t => now <- timezone_now ;; ret (t <? now)
  end.

(** The [try] block of the restricted branch.  [Some b] is [return b];
    [None] is the end of the [if/elif] chain with no branch taken, from
    where control leaves the [try] statement. *)
Definition restricted_branch (user : User) (file_obj : UserFile)
    (permission_type : string) : M (option bool) :=
  access <- (fun w => (get (accesses w) (grant_of file_obj user), w)) ;;
  expired <- has_expired access ;;
  if expired then ret (Some false)
  else if String.eqb permission_type "view" then ret (Some true)
  else if String.eqb permission_type "download" then
    ret (Some (contains ["download"; "edit"]%string (permission access)))
  else if String.eqb permission_type "edit" then
    ret (Some (String.eqb (permission access) "edit"))
  else ret None.

Definition can_access_file (user : User) (file_obj : UserFile)
    (permission_type : string) : M bool :=
  if owner file_obj =? user_id user then ret true
  else if String.eqb (visibility file_obj) "public" then
    ret (contains ["view"; "download"]%string permission_type)
  else if String.eqb (visibility file_obj) "private" then ret false
  else if String.eqb (visibility file_obj) "restricted" then
    r <- try_except (restricted_branch user file_obj permission_type)
           DoesNotExist (ret (Some false)) ;;
    match r with
    | Some b => ret b
    | None => ret false
    end
  else ret false.

(** ** Requests, responses and the decorators *)

(** [request.user] is [None] for the anonymous user.  [POST] and [META]
    are dictionaries from strings to strings. *)
Record Request := {
  req_user : option User;
  method : string;
  POST : list (string * string);
  META : list (string * string)
}.

(** What a view hands back.  [flash] is the text queued with
    [messages.success] or [messages.error] before the redirect. *)
Inductive Response :=
| Redirect (to : string) (flash : option string)
| Render (template : string)
| JsonResponse (success : bool) (message : string)
| HttpResponseNotAllowed.

Fixpoint dict_get (d : list (string * string)) (k : string) : option string :=
  match d with
  | [] => None
  | (k', v) :: d' => if String.eqb k' k then Some v else dict_get d' k
  end.

(** [s.split(',')[0]] *)
Fixpoint before_comma (s : string) : string :=
  match s with
  | EmptyString => EmptyString
  | String c s' =>
      if Ascii.eqb c ","%char then EmptyString else String c (before_comma s')
  end.

Definition get_client_ip (request : Request) : option string :=
  match dict_get (META request) "HTTP_X_FORWARDED_FOR" with
  | Some x_forwarded_for =>
      if String.eqb x_forwarded_for EmptyString then dict_get (META request) "REMOTE_ADDR"
      else Some (before_comma x_forwarded_for)
  | None => dict_get (META request) "REMOTE_ADDR"
  end.

Definition login_required (request : Request) (view : User -> M Response)
    : M Response :=
  match req_user request with
  | None => ret (Redirect "login" None)
  | Some user => view user
  end.

Definition require_http_methods (allowed : list string) (request : Request)
    (view : M Response) : M Response :=
  if contains allowed (method request) then view else ret HttpResponseNotAllowed.

Definition get_object_or_404 {A} (table : World -> list A) (P : A -> bool) : M A :=
  try_except (fun w => (get (table w) P, w)) DoesNotExist (raise Http404).

(** ** Writes to the tables *)

Definition with_files (fs : list UserFile) (w : World) : World :=
  {| users := users w; files := fs; accesses := accesses w;
     activities := activities w; next_access_id := next_access_id w;
     clock := clock w |}.

Definition with_accesses (rows : list FileAccess) (next : Z) (w : World) : World :=
  {| users := users w; files := files w; accesses := rows;
     activities := activities w; next_access_id := next;
     clock := clock w |}.

Definition with_activities (acts : list FileActivity) (w : World) : World :=
  {| users := users w; files := files w; accesses := accesses w;
     activities := acts; next_access_id := next_access_id w;
     clock := clock w |}.

(** [FileActivity.objects.create(...)] *)
Definition FileActivity_create (file_obj : UserFile) (user : User)
    (act : string) (ip : option string) : M unit :=
  writes (fun w =>
    with_activities
      (activities w ++
       [{| activity_file := file_id file_obj; activity_user := user_id user;
           action := act; ip_address := ip |}]) w).

(** [Model.save()] of an existing [UserFile]: the row with its primary key
    is rewritten, and the row is inserted when there is none. *)
Definition UserFile_save (f : UserFile) : M unit :=
  writes (fun w =>
    with_files
      (if existsb (fun r => file_id r =? file_id f) (files w)
       then map (fun r => if file_id r =? file_id f then f else r) (files w)
       else files w ++ [f]) w).

Definition same_pair (a b : FileAccess) : bool :=
  (access_file a =? access_file b) && (access_user a =? access_user b).

(** [unique_together = ['file', 'user']]: a write that would leave two
    rows with one (file, user) pair is refused by the store. *)
Definition FileAccess_create (file_obj : UserFile) (user : User)
    (perm : string) (by_user : User) (expiry : option Z) : M FileAccess :=
  fun w =>
    let row := {| access_id := next_access_id w;
                  access_file := file_id file_obj;
                  access_user := user_id user;
                  permission := perm;
                  granted_by := user_id by_user;
                  expires_at := expiry |} in
    if existsb (same_pair row) (accesses w) then (Raise IntegrityError, w)
    else (Ok row, with_accesses (accesses w ++ [row]) (next_access_id w + 1) w).

(** [access.save()] on a row read from the table. *)
Definition FileAccess_save (a : FileAccess) : M unit :=
  fun w =>
    if existsb (fun r => same_pair a r && negb (access_id r =? access_id a))
         (accesses w)
    then (Raise IntegrityError, w)
    else if existsb (fun r => access_id r =? access_id a) (accesses w)
    then (Ok tt,
          with_accesses
            (map (fun r => if access_id r =? access_id a then a else r) (accesses w))
            (next_access_id w) w)
    else (Ok tt, with_accesses (accesses w ++ [a]) (next_access_id w) w).

(** [access.delete()] *)
Definition FileAccess_delete (a : FileAccess) : M unit :=
  writes (fun w =>
    with_accesses
      (filter (fun r => negb (access_id r =? access_id a)) (accesses w))
      (next_access_id w) w).

(** [access.permission = permission; access.expires_at = ...]: the row
    [share_file] saves over a grant it found. *)
Definition regrant (a : FileAccess) (perm : string) (expiry : option Z)
    : FileAccess :=
  {| access_id := access_id a;
     access_file := access_file a;
     access_user := access_user a;
     permission := perm;
     granted_by := granted_by a;
     expires_at := expiry |}.

(** The filter of [User.objects.get(email=user_email, is_verified=True)]. *)
Definition verified_with_email (user_email : option string) (u : User) : bool :=
  match user_email with
  | Some e => String.eqb (email u) e
  | None => false
  end && is_verified u.

(** ** The views that change a file or its grants *)

Section Views.

(** The framework's parsing of a date-time field, and the validation of
    [FileEditForm] (name, description, category, visibility): [None] is an
    invalid value or form. *)
Variable parse_datetime : string -> option Z.
Variable FileEditForm_clean :
  list (string * string) -> UserFile -> World ->
  option (string * string * option Z * string).

Definition owned_file (file_id : Z) (user : User) (f : UserFile) : bool :=
  (Models.file_id f =? file_id) && (owner f =? user_id user).

Definition edit_file (request : Request) (file_id : Z) : M Response :=
  login_required request (fun user =>
    file_obj <- get_object_or_404 files (owned_file file_id user) ;;
    if String.eqb (method request) "POST" then
      cleaned <- reads (FileEditForm_clean (POST request) file_obj) ;;
      match cleaned with
      | Some (new_name, new_description, new_category, new_visibility) =>
          UserFile_save
            {| Models.file_id := Models.file_id file_obj;
               name := new_name;
               description := new_description;
               owner := owner file_obj;
               category := new_category;
               visibility := new_visibility;
               is_favorite := is_favorite file_obj;
               download_count := download_count file_obj |} ;;;
          FileActivity_create file_obj user "update" (get_client_ip request) ;;;
          ret (Redirect "filemanager:view_file" (Some "File updated successfully!"%string))
      | None => ret (Render "filemanager/edit_file.html")
      end
    else ret (Render "filemanager/edit_file.html")).

(** [expires_at if expires_at else None], turned into a timestamp when the
    row is written. *)
Definition to_expiry (posted : option string) : M (option Z) :=
  match posted with
  | None => ret None
  | Some s =>
      if String.eqb s EmptyString then ret None
      else match parse_datetime s with
           | Some t => ret (Some t)
           | None => raise ValidationError
           end
  end.

(** [FileAccess.objects.get_or_create(file=, user=, defaults={...})] *)
Definition get_or_create (file_obj : UserFile) (target_user : User)
    (perm : string) (by_user : User) (posted_expiry : option string)
    : M (FileAccess * bool) :=
  try_except
    (access <- (fun w => (get (accesses w) (grant_of file_obj target_user), w)) ;;
     ret (access, false))
    DoesNotExist
    (expiry <- to_expiry posted_expiry ;;
     access <- FileAccess_create file_obj target_user perm by_user expiry ;;
     ret (access, true)).

Definition share_file (request : Request) (file_id : Z) : M Response :=
  login_required request (fun user =>
    file_obj <- get_object_or_404 files (owned_file file_id user) ;;
    if negb (String.eqb (visibility file_obj) "restricted") then
      ret (JsonResponse false
             "Only restricted files can be shared with specific users.")
    else if String.eqb (method request) "POST" then
      let user_email := dict_get (POST request) "user_email" in
      let perm :=
        match dict_get (POST request) "permission" with
        | Some p => p
        | None => "view"%string
        end in
      let posted_expiry := dict_get (POST request) "expires_at" in
      found <- try_except
                 (u <- (fun w =>
                          (get (users w) (verified_with_email user_email), w)) ;;
                  ret (Some u))
                 DoesNotExist (ret None) ;;
      match found with
      | None => ret (JsonResponse false "User not found or not verified.")
      | Some target_user =>
          r <- get_or_create file_obj target_user perm user posted_expiry ;;
          (let '(access, created) := r in
           if negb created then
             expiry <- to_expiry posted_expiry ;;
             FileAccess_save (regrant access perm expiry)
           else ret tt) ;;;
          FileActivity_create file_obj user "share" (get_client_ip request) ;;;
          ret (JsonResponse true
                 ("File shared with " ++ full_name target_user ++ "."))
      end
    else ret (JsonResponse false "Invalid request method.")).

(** The filter [id=access_id, file__owner=request.user]. *)
Definition owned_access (access_id : Z) (user : User) (fs : list UserFile)
    (a : FileAccess) : bool :=
  (Models.access_id a =? access_id) &&
  existsb (fun f => (file_id f =? access_file a) && (owner f =? user_id user)) fs.

Definition remove_access (request : Request) (access_id : Z) : M Response :=
  login_required request (fun user =>
    require_http_methods ["POST"%string] request
      (fs <- reads files ;;
       access <- get_object_or_404 accesses (owned_access access_id user fs) ;;
       grantee <- (fun w =>
                     (get (users w) (fun u => user_id u =? access_user access), w)) ;;
       FileAccess_delete access ;;;
       ret (JsonResponse true
              ("Access removed for " ++ full_name grantee ++ ".")))).

End Views.

(** The query of [shared_files].  The two [filter] calls each join the
    grant table on their own: a file is kept when some grant on it names
    the user and some grant on it is still running, that is, has no expiry
    or an expiry later than now.  The text search, the ordering and the
    pagination only select from this list. *)
Definition running_at (now : Z) (a : FileAccess) : bool :=
  match expires_at a with
  | None => true
  | Some t => now <? t
  end.

Definition accessible_files (user : User) : M (list UserFile) :=
  now <- timezone_now ;;
  reads (fun w =>
    filter (fun f =>
      existsb (fun a => (access_file a =? file_id f) && (access_user a =? user_id user))
        (accesses w) &&
      existsb (fun a => (access_file a =? file_id f) && running_at now a)
        (accesses w))
      (files w)).

(** The grant the store finds for a user on a file, read without running
    the view. *)
Definition find_grant (w : World) (file_obj : UserFile) (user : User)
    : Result FileAccess :=
  get (accesses w) (grant_of file_obj user).

(** The [if/elif] chain on [permission_type] of the restricted branch, with
    the fall-through to the last [return False]. *)
Definition by_level (a : FileAccess) (p : string) : bool :=
  if String.eqb p "view" then true
  else if String.eqb p "download" then
    contains ["download"; "edit"]%string (permission a)
  else if String.eqb p "edit" then String.eqb (permission a) "edit"
  else false.

(** ** Well-formed grant tables *)

Definition pair_of (a : FileAccess) : Z * Z := (access_file a, access_user a).

(** [Meta.unique_together = ['file', 'user']] *)
Definition unique_together (rows : list FileAccess) : Prop :=
  NoDup (map pair_of rows).

(** Primary keys are distinct and were all drawn from the counter. *)
Definition keys_ok (w : World) : Prop :=
  NoDup (map access_id (accesses w)) /\
  forall a, In a (accesses w) -> access_id a < next_access_id w.

Definition store_ok (w : World) : Prop :=
  keys_ok w /\ unique_together (accesses w).

(** The stores the application can get to.  It starts with no grant.
    [share_file], [remove_access] and [edit_file] are run as they are
    written; the clock moves on; and whatever else the application does to
    the grant table is the removal of rows, when a file or a user goes
    and the foreign keys of [FileAccess] cascade. *)
Inductive reachable (parse_datetime : string -> option Z)
    (FileEditForm_clean :
       list (string * string) -> UserFile -> World ->
       option (string * string * option Z * string)) : World -> Prop :=
| reach_start (us : list User) (fs : list UserFile) (now : Z) :
    reachable parse_datetime FileEditForm_clean
      {| users := us; files := fs; accesses := []; activities := [];
         next_access_id := 1; clock := now |}
| reach_share (w : World) (request : Request) (file_id : Z) :
    reachable parse_datetime FileEditForm_clean w ->
    reachable parse_datetime FileEditForm_clean
      (snd (share_file parse_datetime request file_id w))
| reach_remove (w : World) (request : Request) (access_id : Z) :
    reachable parse_datetime FileEditForm_clean w ->
    reachable parse_datetime FileEditForm_clean
      (snd (remove_access request access_id w))
| reach_edit (w : World) (request : Request) (file_id : Z) :
    reachable parse_datetime FileEditForm_clean w ->
    reachable parse_datetime FileEditForm_clean
      (snd (edit_file FileEditForm_clean request file_id w))
| reach_tick (w : World) (now : Z) :
    reachable parse_datetime FileEditForm_clean w ->
    clock w <= now ->
    reachable parse_datetime FileEditForm_clean
      {| users := users w; files := files w; accesses := accesses w;
         activities := activities w; next_access_id := next_access_id w;
         clock := now |}
| reach_cascade (w : World) (us : list User) (fs : list UserFile)
    (acts : list FileActivity) (kept : FileAccess -> bool) :
    reachable parse_datetime FileEditForm_clean w ->
    reachable parse_datetime FileEditForm_clean
      {| users := us; files := fs; accesses := filter kept (accesses w);
         activities := acts; next_access_id := next_access_id w;
         clock := clock w |}.

(** ** Sample data *)

Module Sample.

Definition alice : User :=
  {| user_id := 1; email := "alice@example.com"; is_verified := true;
     full_name := "Alice A" |}.

Definition bob : User :=
  {| user_id := 2; email := "bob@example.com"; is_verified := true;
     full_name := "Bob B" |}.

Definition report (vis : string) : UserFile :=
  {| file_id := 10; name := "report"; description := EmptyString; owner := 1;
     category := None; visibility := vis; is_favorite := false;
     download_count := 0 |}.

Definition grant (perm : string) (expiry : option Z) : FileAccess :=
  {| access_id := 1; access_file := 10; access_user := 2;
     permission := perm; granted_by := 1; expires_at := expiry |}.

(** Alice owns [report]; the grant table is [rows]; the time is [now]. *)
Definition world (vis : string) (rows : list FileAccess) (now : Z) : World :=
  {| users := [alice; bob]; files := [report vis]; accesses := rows;
     activities := []; next_access_id := 2; clock := now |}.

Definition post (u : User) (fields : list (string * string)) : Request :=
  {| req_user := Some u; method := "POST"; POST := fields;
     META := [("REMOTE_ADDR", "10.0.0.7")]%string |}.

(** The application on its first day, and Alice sharing [report] with
    Bob twice. *)
Definition start : World :=
  {| users := [alice; bob]; files := [report "restricted"]; accesses := [];
     activities := []; next_access_id := 1; clock := 0 |}.

Definition share_view : Request :=
  post alice [("user_email", "bob@example.com"); ("permission", "view")]%string.

Definition share_edit : Request :=
  post alice [("user_email", "bob@example.com"); ("permission", "edit");
              ("expires_at", "200")]%string.

(** A date-time parser for decimal digits, and a form check that takes
    the posted values as they are and asks for a name. *)
Fixpoint digits (s : string) (acc : Z) : option Z :=
  match s with
  | EmptyString => Some acc
  | String c s' =>
      let n := Z.of_nat (nat_of_ascii c) in
      if (48 <=? n) && (n <=? 57) then digits s' (10 * acc + (n - 48)) else None
  end.

Definition parse (s : string) : option Z := digits s 0.

Definition clean (posted : list (string * string)) (f : UserFile) (w : World)
    : option (string * string * option Z * string) :=
  match dict_get posted "name", dict_get posted "visibility" with
  | Some n, Some v => Some (n, description f, category f, v)
  | _, _ => None
  end.

End Sample.

(** ** The detail page and the upload path *)

(** [view_file]: the file is looked up by key alone, then the decision is
    asked for [view]. *)
Definition view_file (request : Request) (file_id : Z) : M Response :=
  login_required request (fun user =>
    file_obj <- get_object_or_404 files (fun f => Models.file_id f =? file_id) ;;
    allowed <- can_access_file user file_obj "view" ;;
    if negb allowed then
      ret (Redirect "filemanager:file_list"
             (Some "You do not have permission to view this file."%string))
    else
      FileActivity_create file_obj user "view" (get_client_ip request) ;;;
      ret (Render "filemanager/file_detail.html")).

(** Python's [str] of an integer. *)
Definition str_int (n : Z) : string :=
  DecimalString.NilZero.string_of_int (Z.to_int n).

(** [models.user_directory_path]: [instance.owner.id] is the owner key
    held in the row. *)
Definition user_directory_path (instance : UserFile) (filename : string)
    : string :=
  ("uploads/user_" ++ str_int (owner instance) ++ "/" ++ filename)%string.

(** The row [share_file] has [get_or_create] make for a user without a
    grant: the key is the next one of the counter, the granter is the
    requester. *)
Definition new_grant (w : World) (f : UserFile) (target by_user : User)
    (perm : string) (expiry : option Z) : FileAccess :=
  {| access_id := next_access_id w; access_file := file_id f;
     access_user := user_id target; permission := perm;
     granted_by := user_id by_user; expires_at := expiry |}.

(** Two stores with the same users, files and clock. *)
Definition same_users_files_clock (w w' : World) : Prop :=
  users w' = users w /\ files w' = files w /\ clock w' = clock w.

(** ** Deleting a file *)

(** [file_obj.delete()]: the row goes, and with it the rows of
    [FileAccess] and [FileActivity] whose foreign key [file] points to it
    ([on_delete=models.CASCADE]). *)
Definition UserFile_delete (f : UserFile) : M unit :=
  writes (fun w =>
    {| users := users w;
       files := filter (fun r => negb (file_id r =? file_id f)) (files w);
       accesses :=
         filter (fun a => negb (access_file a =? file_id f)) (accesses w);
       activities :=
         filter (fun x => negb (activity_file x =? file_id f)) (activities w);
       next_access_id := next_access_id w;
       clock := clock w |}).

(** [request.headers.get('X-Requested-With') == 'XMLHttpRequest'] *)
Definition is_ajax (request : Request) : bool :=
  match dict_get (META request) "HTTP_X_REQUESTED_WITH" with
  | Some v => String.eqb v "XMLHttpRequest"
  | None => false
  end.

Definition quoted (s : string) : string :=
  (String (ascii_of_nat 34) s ++ String (ascii_of_nat 34) EmptyString)%string.

Section Deletion.

(** The disk is outside the store.  [remove_upload f] says whether the
    first statement of the [try] block, the removal of the stored upload
    when there is one, runs through; [false] is an exception out of
    [os]. *)
Variable remove_upload : UserFile -> bool.

(** [delete_file]: everything after the lookup sits in [try], and
    [except Exception] answers with the error message. *)
Definition delete_file (request : Request) (file_id : Z) : M Response :=
  login_required request (fun user =>
    require_http_methods ["POST"%string] request
      (file_obj <- get_object_or_404 files (owned_file file_id user) ;;
       if remove_upload file_obj then
         FileActivity_create file_obj user "delete" (get_client_ip request) ;;;
         (let file_name := name file_obj in
          UserFile_delete file_obj ;;;
          if is_ajax request then
            ret (JsonResponse true
                   (quoted file_name ++ " has been deleted successfully."))
          else
            ret (Redirect "filemanager:file_list"
                   (Some (quoted file_name ++ " has been deleted successfully.")%string)))
       else if is_ajax request then
         ret (JsonResponse false "Error deleting file.")
       else
         ret (Redirect "filemanager:file_list" (Some "Error deleting file."%string)))).

End Deletion.

(** * Properties of [can_access_file] *)

Section Decision.

Variables (user : User) (file_obj : UserFile).

Hypothesis not_owner : owner file_obj <> user_id user.

Lemma owner_test_fails : (owner file_obj =? user_id user) = false.
Proof. now apply Z.eqb_neq. Qed.

(** Past the first three tests, the restricted branch is all there is. *)
Lemma restricted_unfold (p : string) (w : World) :
  visibility file_obj = "restricted"%string ->
  can_access_file user file_obj p w =
  (r <- try_except (restricted_branch user file_obj p)
         DoesNotExist (ret (Some false)) ;;
   match r with Some b => ret b | None => ret false end) w.
Proof.
  intros Hv. unfold can_access_file.
  rewrite owner_test_fails, Hv. reflexivity.
Qed.

Lemma restricted_no_grant (p : string) (w : World) :
  visibility file_obj = "restricted"%string ->
  find_grant w file_obj user = Raise DoesNotExist ->
  can_access_file user file_obj p w = (Ok false, w).
Proof.
  intros Hv Hg. rewrite restricted_unfold by assumption.
  unfold bind, try_except, restricted_branch, bind.
  unfold find_grant in Hg. rewrite Hg. reflexivity.
Qed.

Lemma restricted_expired (p : string) (w : World) (a : FileAccess) (t : Z) :
  visibility file_obj = "restricted"%string ->
  find_grant w file_obj user = Ok a -> expires_at a = Some t -> t < clock w ->
  can_access_file user file_obj p w = (Ok false, w).
Proof.
  intros Hv Hg He Hlt. rewrite restricted_unfold by assumption.
  unfold bind, try_except, restricted_branch, bind, has_expired.
  unfold find_grant in Hg. rewrite Hg, He.
  unfold bind, timezone_now, reads, ret.
  apply Z.ltb_lt in Hlt. rewrite Hlt. reflexivity.
Qed.

Lemma restricted_running (p : string) (w : World) (a : FileAccess) :
  visibility file_obj = "restricted"%string ->
  find_grant w file_obj user = Ok a ->
  (expires_at a = None \/ exists t, expires_at a = Some t /\ clock w <= t) ->
  can_access_file user file_obj p w = (Ok (by_level a p), w).
Proof.
  intros Hv Hg He. rewrite restricted_unfold by assumption.
  unfold bind, try_except, restricted_branch, bind, has_expired, by_level.
  unfold find_grant in Hg. rewrite Hg.
  assert (Hx : (match expires_at a with
                | None => ret false
                | Some t => now <- timezone_now;; ret (t <? now)
                end) w = (Ok false, w)).
  { destruct He as [-> | [t [-> Hle]]]; [reflexivity |].
    unfold bind, timezone_now, reads, ret.
    apply Z.ltb_ge in Hle. now rewrite Hle. }
  rewrite Hx.
  destruct (String.eqb p "view"); [reflexivity |].
  destruct (String.eqb p "download"); [reflexivity |].
  destruct (String.eqb p "edit"); reflexivity.
Qed.

End Decision.

Import Sample.

(** The filter of a grant lookup only lets rows of one (file, user) pair
    through, so a table that keeps the pairs apart gives it one row at
    most. *)
Lemma filter_unique {A B : Type} (key : A -> B) (P : A -> bool) (c : B)
    (l : list A) :
  (forall x, P x = true -> key x = c) ->
  NoDup (map key l) ->
  filter P l = [] \/ exists x, filter P l = [x].
Proof.
  intros HP. induction l as [| x l IH]; intros Hnd; [now left |].
  simpl in Hnd. apply NoDup_cons_iff in Hnd as [Hnotin Hnd].
  simpl. destruct (P x) eqn:Hx.
  - right. exists x. f_equal.
    destruct (filter P l) as [| y rest] eqn:Hf; [reflexivity |].
    exfalso. apply Hnotin.
    assert (Hy : In y (filter P l)) by (rewrite Hf; now left).
    apply filter_In in Hy as [Hin HPy].
    rewrite (HP x Hx), <- (HP y HPy). now apply in_map.
  - now apply IH.
Qed.

Lemma grant_of_pair (f : UserFile) (u : User) (a : FileAccess) :
  grant_of f u a = true -> pair_of a = (file_id f, user_id u).
Proof.
  unfold grant_of, pair_of. intros H.
  apply andb_true_iff in H as [H1 H2].
  apply Z.eqb_eq in H1, H2. congruence.
Qed.

Lemma find_grant_cases (w : World) (f : UserFile) (u : User) :
  unique_together (accesses w) ->
  find_grant w f u = Raise DoesNotExist \/ exists a, find_grant w f u = Ok a.
Proof.
  intros Hu. unfold find_grant, get.
  destruct (filter_unique pair_of (grant_of f u) (file_id f, user_id u)
              (accesses w) (grant_of_pair f u) Hu) as [-> | [a ->]].
  - now left.
  - right. now exists a.
Qed.

Lemma owner_allowed (u : User) (f : UserFile) (p : string) (w : World) :
  owner f = user_id u -> can_access_file u f p w = (Ok true, w).
Proof.
  intros H. unfold can_access_file.
  apply Z.eqb_eq in H. now rewrite H.
Qed.

Lemma private_denied (u : User) (f : UserFile) (p : string) (w : World) :
  visibility f = "private"%string -> owner f <> user_id u ->
  can_access_file u f p w = (Ok false, w).
Proof.
  intros Hv Hn. unfold can_access_file.
  rewrite (owner_test_fails u f Hn), Hv. reflexivity.
Qed.

(** C2: the owner of a file is allowed every operation, whatever the
    visibility of the file and whatever the grant table holds; the test
    comes first, so nothing else is even looked at. *)
Theorem can_access_file_owner (user : User) (file_obj : UserFile)
    (permission_type : string) (w : World) :
  owner file_obj = user_id user ->
  can_access_file user file_obj permission_type w = (Ok true, w).
Proof. apply owner_allowed. Qed.

Lemma can_access_file_owner_witness :
  owner (report "private") = user_id alice /\
  can_access_file alice (report "private") "edit" (world "private" [] 0)
  = (Ok true, world "private" [] 0).
Proof.
  split; [reflexivity |].
  apply (can_access_file_owner alice (report "private") "edit"). reflexivity.
Defined.

(** C3: on a public file, anyone but the owner may view and download and
    may not edit, whatever the grant table holds. *)
Theorem can_access_file_public (user : User) (file_obj : UserFile) (w : World) :
  visibility file_obj = "public"%string ->
  owner file_obj <> user_id user ->
  can_access_file user file_obj "view" w = (Ok true, w) /\
  can_access_file user file_obj "download" w = (Ok true, w) /\
  can_access_file user file_obj "edit" w = (Ok false, w).
Proof.
  intros Hv Hn. unfold can_access_file.
  rewrite (owner_test_fails user file_obj Hn), Hv.
  repeat split; reflexivity.
Qed.

Lemma can_access_file_public_witness :
  let w := world "public" [grant "edit" None] 0 in
  visibility (report "public") = "public"%string /\
  owner (report "public") <> user_id bob /\
  can_access_file bob (report "public") "view" w = (Ok true, w) /\
  can_access_file bob (report "public") "download" w = (Ok true, w) /\
  can_access_file bob (report "public") "edit" w = (Ok false, w).
Proof.
  intros w. split; [reflexivity |]. split; [simpl; lia |].
  apply (can_access_file_public bob (report "public") w);
    [reflexivity | simpl; lia].
Defined.

(** C4: on a private file, anyone but the owner is denied every operation;
    a grant row for the pair, if there is one, is never read. *)
Theorem can_access_file_private (user : User) (file_obj : UserFile)
    (permission_type : string) (w : World) :
  visibility file_obj = "private"%string ->
  owner file_obj <> user_id user ->
  can_access_file user file_obj permission_type w = (Ok false, w).
Proof. apply private_denied. Qed.

Lemma can_access_file_private_witness :
  let w := world "private" [grant "edit" None] 0 in
  visibility (report "private") = "private"%string /\
  owner (report "private") <> user_id bob /\
  find_grant w (report "private") bob = Ok (grant "edit" None) /\
  can_access_file bob (report "private") "view" w = (Ok false, w).
Proof.
  intros w. split; [reflexivity |]. split; [simpl; lia |].
  split; [reflexivity |].
  apply (can_access_file_private bob (report "private") "view" w);
    [reflexivity | simpl; lia].
Defined.

Lemma contains_download_edit (s : string) :
  contains ["download"; "edit"]%string s = true <->
  s = "download"%string \/ s = "edit"%string.
Proof.
  unfold contains. cbn [existsb]. rewrite !orb_true_iff, !String.eqb_eq.
  split.
  - intros [H | [H | H]]; [left | right | discriminate]; now symmetry.
  - intros [H | H]; [left | right; left]; now symmetry.
Qed.

(** C5: on a restricted file, for anyone but the owner who holds a grant
    that has not expired, view is allowed at every level, download is
    allowed exactly at the levels download and edit, and edit is allowed
    exactly at the level edit. *)
Theorem can_access_file_grant_levels (user : User) (file_obj : UserFile)
    (w : World) (a : FileAccess) :
  visibility file_obj = "restricted"%string ->
  owner file_obj <> user_id user ->
  find_grant w file_obj user = Ok a ->
  (expires_at a = None \/ exists t, expires_at a = Some t /\ clock w < t) ->
  can_access_file user file_obj "view" w = (Ok true, w) /\
  (exists b, can_access_file user file_obj "download" w = (Ok b, w) /\
             (b = true <->
              permission a = "download"%string \/ permission a = "edit"%string)) /\
  (exists b, can_access_file user file_obj "edit" w = (Ok b, w) /\
             (b = true <-> permission a = "edit"%string)).
Proof.
  intros Hv Hn Hg He.
  assert (He' : expires_at a = None \/
                exists t, expires_at a = Some t /\ clock w <= t).
  { destruct He as [He | [t [He Hlt]]]; [now left |].
    right. exists t. split; [assumption | lia]. }
  pose proof (fun p => restricted_running user file_obj Hn p w a Hv Hg He') as Hrun.
  split; [exact (Hrun "view"%string) |]. split.
  - exists (contains ["download"; "edit"]%string (permission a)).
    split; [exact (Hrun "download"%string) | apply contains_download_edit].
  - exists (String.eqb (permission a) "edit").
    split; [exact (Hrun "edit"%string) | apply String.eqb_eq].
Qed.

Lemma can_access_file_grant_levels_witness :
  let w := world "restricted" [grant "download" None] 0 in
  let f := report "restricted" in
  can_access_file bob f "view" w = (Ok true, w) /\
  (exists b, can_access_file bob f "download" w = (Ok b, w) /\
             (b = true <->
              permission (grant "download" None) = "download"%string \/
              permission (grant "download" None) = "edit"%string)) /\
  (exists b, can_access_file bob f "edit" w = (Ok b, w) /\
             (b = true <-> permission (grant "download" None) = "edit"%string)).
Proof.
  intros w f.
  apply (can_access_file_grant_levels bob f w (grant "download" None)).
  - reflexivity.
  - simpl; lia.
  - reflexivity.
  - left; reflexivity.
Defined.

(** C6: on a restricted file, anyone but the owner is denied every
    operation when the store has no grant for the pair, and just the same
    when the grant it has carries an expiry earlier than now. *)
Theorem can_access_file_no_or_expired_grant (user : User) (file_obj : UserFile)
    (permission_type : string) (w : World) :
  visibility file_obj = "restricted"%string ->
  owner file_obj <> user_id user ->
  (find_grant w file_obj user = Raise DoesNotExist \/
   exists a t, find_grant w file_obj user = Ok a /\
               expires_at a = Some t /\ t < clock w) ->
  can_access_file user file_obj permission_type w = (Ok false, w).
Proof.
  intros Hv Hn [Hnone | [a [t [Hg [He Hlt]]]]].
  - now apply restricted_no_grant.
  - now apply (restricted_expired user file_obj Hn permission_type w a t).
Qed.

Lemma can_access_file_no_or_expired_grant_witness :
  let f := report "restricted" in
  can_access_file bob f "view" (world "restricted" [] 100)
    = (Ok false, world "restricted" [] 100) /\
  can_access_file bob f "view" (world "restricted" [grant "edit" (Some 99)] 100)
    = (Ok false, world "restricted" [grant "edit" (Some 99)] 100).
Proof.
  intros f. split.
  - apply (can_access_file_no_or_expired_grant bob f "view");
      [reflexivity | simpl; lia | left; reflexivity].
  - apply (can_access_file_no_or_expired_grant bob f "view");
      [reflexivity | simpl; lia |].
    right. exists (grant "edit" (Some 99)), 99.
    split; [reflexivity |]. split; [reflexivity | simpl; lia].
Defined.

(** C7: on a grant table that keeps the (file, user) pairs apart,
    [can_access_file] returns a boolean for every input, and for anyone
    but the owner it returns [False] when the visibility is none of the
    three known values, when there is no grant on a restricted file, and
    when the grant on a restricted file has expired. *)
Theorem can_access_file_never_raises (user : User) (file_obj : UserFile)
    (permission_type : string) (w : World) :
  unique_together (accesses w) ->
  (exists b, can_access_file user file_obj permission_type w = (Ok b, w)) /\
  (owner file_obj <> user_id user ->
   (visibility file_obj <> "public"%string /\
    visibility file_obj <> "private"%string /\
    visibility file_obj <> "restricted"%string) \/
   (visibility file_obj = "restricted"%string /\
    find_grant w file_obj user = Raise DoesNotExist) \/
   (visibility file_obj = "restricted"%string /\
    exists a t, find_grant w file_obj user = Ok a /\
                expires_at a = Some t /\ t < clock w) ->
   can_access_file user file_obj permission_type w = (Ok false, w)).
Proof.
  intros Hu. split.
  - destruct (Z.eq_dec (owner file_obj) (user_id user)) as [Ho | Hn].
    { exists true. now apply owner_allowed. }
    destruct (String.eqb (visibility file_obj) "public") eqn:Hpub.
    { eexists. unfold can_access_file.
      rewrite (owner_test_fails user file_obj Hn), Hpub. reflexivity. }
    destruct (String.eqb (visibility file_obj) "private") eqn:Hpriv.
    { exists false. apply String.eqb_eq in Hpriv.
      now apply private_denied. }
    destruct (String.eqb (visibility file_obj) "restricted") eqn:Hres.
    2:{ exists false. unfold can_access_file.
        now rewrite (owner_test_fails user file_obj Hn), Hpub, Hpriv, Hres. }
    apply String.eqb_eq in Hres.
    destruct (find_grant_cases w file_obj user Hu) as [Hnone | [a Hg]].
    { exists false. now apply restricted_no_grant. }
    destruct (expires_at a) as [t |] eqn:He.
    + destruct (Z.lt_ge_cases t (clock w)) as [Hlt | Hge].
      * exists false.
        now apply (restricted_expired user file_obj Hn permission_type w a t).
      * exists (by_level a permission_type).
        apply restricted_running; try assumption.
        right. now exists t.
    + exists (by_level a permission_type).
      apply restricted_running; try assumption. now left.
  - intros Hn [[Hpub [Hpriv Hres]] | [[Hv Hnone] | [Hv Hexp]]].
    + unfold can_access_file.
      apply String.eqb_neq in Hpub, Hpriv, Hres.
      now rewrite (owner_test_fails user file_obj Hn), Hpub, Hpriv, Hres.
    + now apply restricted_no_grant.
    + destruct Hexp as [a [t [Hg [He Hlt]]]].
      now apply (restricted_expired user file_obj Hn permission_type w a t).
Qed.

Lemma can_access_file_never_raises_witness :
  let w := world "archived" [grant "edit" None] 0 in
  unique_together (accesses w) /\
  (exists b, can_access_file bob (report "archived") "edit" w = (Ok b, w)) /\
  can_access_file bob (report "archived") "edit" w = (Ok false, w).
Proof.
  intros w.
  assert (Hu : unique_together (accesses w)).
  { unfold unique_together; simpl. constructor; [intros [] | constructor]. }
  split; [exact Hu |].
  destruct (can_access_file_never_raises bob (report "archived") "edit" w Hu)
    as [Htotal Hdeny].
  split; [exact Htotal |].
  apply Hdeny; [simpl; lia |].
  left. repeat split; discriminate.
Defined.

(** Every step of [can_access_file] is a read. *)
Ltac run_decision :=
  unfold can_access_file, bind, try_except, restricted_branch, has_expired,
    bind, timezone_now, reads, ret.

Ltac split_branches :=
  repeat (cbn beta iota;
          match goal with
          | |- context [get ?rows ?P] => destruct (get rows P)
          | |- context [expires_at ?a] => destruct (expires_at a)
          | |- context [if ?c then _ else _] => destruct c
          end).

Lemma can_access_file_keeps_world (u : User) (f : UserFile) (p : string)
    (w : World) :
  snd (can_access_file u f p w) = w.
Proof. run_decision. split_branches; reflexivity. Qed.

Lemma can_access_file_reads_grants_and_clock (u : User) (f : UserFile)
    (p : string) (w w' : World) :
  accesses w' = accesses w -> clock w' = clock w ->
  fst (can_access_file u f p w') = fst (can_access_file u f p w).
Proof.
  intros Ha Hc. run_decision.
  repeat (cbn beta iota;
          match goal with
          | |- context [if ?c then _ else _] => destruct c
          end); try reflexivity;
  repeat (cbn beta iota; rewrite ?Ha, ?Hc;
          match goal with
          | |- context [get ?rows ?P] => destruct (get rows P)
          | |- context [expires_at ?a] => destruct (expires_at a)
          | |- context [if ?c then _ else _] => destruct c
          end); reflexivity.
Qed.

(** C8: a call of [can_access_file] leaves every table as it found it, and
    two calls with the same user, file and operation, on stores with the
    same grant table and at the same clock value, return the same
    answer. *)
Theorem can_access_file_pure (user : User) (file_obj : UserFile)
    (permission_type : string) (w w' : World) :
  accesses w' = accesses w ->
  clock w' = clock w ->
  snd (can_access_file user file_obj permission_type w) = w /\
  snd (can_access_file user file_obj permission_type w') = w' /\
  fst (can_access_file user file_obj permission_type w')
  = fst (can_access_file user file_obj permission_type w).
Proof.
  intros Ha Hc. repeat split.
  - apply can_access_file_keeps_world.
  - apply can_access_file_keeps_world.
  - now apply can_access_file_reads_grants_and_clock.
Qed.

Lemma can_access_file_pure_witness :
  let w := world "restricted" [grant "download" (Some 50)] 7 in
  let w' := with_files [report "restricted"; report "restricted"] w in
  snd (can_access_file bob (report "restricted") "download" w) = w /\
  snd (can_access_file bob (report "restricted") "download" w') = w' /\
  fst (can_access_file bob (report "restricted") "download" w')
  = fst (can_access_file bob (report "restricted") "download" w).
Proof.
  intros w w'.
  apply (can_access_file_pure bob (report "restricted") "download" w w');
    reflexivity.
Defined.

(** C1, as the code has it: the expiry test is [expires_at < now], so a
    grant on a restricted file whose expiry equals the clock value is let
    through to the level comparison like any grant that has not
    expired. *)
Theorem can_access_file_expiry_equal_now (user : User) (file_obj : UserFile)
    (w : World) (a : FileAccess) :
  visibility file_obj = "restricted"%string ->
  owner file_obj <> user_id user ->
  find_grant w file_obj user = Ok a ->
  expires_at a = Some (clock w) ->
  can_access_file user file_obj "view" w = (Ok true, w) /\
  (exists b, can_access_file user file_obj "download" w = (Ok b, w) /\
             (b = true <->
              permission a = "download"%string \/ permission a = "edit"%string)) /\
  (exists b, can_access_file user file_obj "edit" w = (Ok b, w) /\
             (b = true <-> permission a = "edit"%string)).
Proof.
  intros Hv Hn Hg He.
  assert (He' : expires_at a = None \/
                exists t, expires_at a = Some t /\ clock w <= t).
  { right. exists (clock w). split; [assumption | lia]. }
  pose proof (fun p => restricted_running user file_obj Hn p w a Hv Hg He') as Hrun.
  split; [exact (Hrun "view"%string) |]. split.
  - exists (contains ["download"; "edit"]%string (permission a)).
    split; [exact (Hrun "download"%string) | apply contains_download_edit].
  - exists (String.eqb (permission a) "edit").
    split; [exact (Hrun "edit"%string) | apply String.eqb_eq].
Qed.

Lemma can_access_file_expiry_equal_now_witness :
  let w := world "restricted" [grant "view" (Some 100)] 100 in
  let f := report "restricted" in
  can_access_file bob f "view" w = (Ok true, w) /\
  (exists b, can_access_file bob f "download" w = (Ok b, w) /\
             (b = true <->
              permission (grant "view" (Some 100)) = "download"%string \/
              permission (grant "view" (Some 100)) = "edit"%string)) /\
  (exists b, can_access_file bob f "edit" w = (Ok b, w) /\
             (b = true <-> permission (grant "view" (Some 100)) = "edit"%string)).
Proof.
  intros w f.
  apply (can_access_file_expiry_equal_now bob f w (grant "view" (Some 100)));
    [reflexivity | simpl; lia | reflexivity | reflexivity].
Defined.

(** C1, as the claim has it, fails: Bob holds an edit grant on Alice's
    restricted file that expires at 100, the clock reads 100, and every
    operation is allowed. *)
Lemma can_access_file_expiry_equal_now_not_denied :
  let w := world "restricted" [grant "edit" (Some 100)] 100 in
  let f := report "restricted" in
  (visibility f = "restricted"%string /\
   owner f <> user_id bob /\
   find_grant w f bob = Ok (grant "edit" (Some 100)) /\
   expires_at (grant "edit" (Some 100)) = Some (clock w)) /\
  can_access_file bob f "view" w = (Ok true, w) /\
  can_access_file bob f "download" w = (Ok true, w) /\
  can_access_file bob f "edit" w = (Ok true, w) /\
  ~ (forall p, fst (can_access_file bob f p w) = Ok false).
Proof.
  intros w f. split.
  { repeat split; simpl; lia. }
  repeat split.
  intros H. specialize (H "view"%string). discriminate H.
Qed.

(** The listing of [shared_files] draws the line one tick earlier: at the
    same store and clock the file is not listed for Bob, and one tick
    before it is. *)
Example shared_files_omits_at_equal_expiry :
  fst (accessible_files bob (world "restricted" [grant "edit" (Some 100)] 100))
  = Ok [] /\
  fst (accessible_files bob (world "restricted" [grant "edit" (Some 100)] 99))
  = Ok [report "restricted"].
Proof. split; reflexivity. Qed.

(** * Properties of the views *)

Lemma filter_none {A : Type} (P : A -> bool) (l : list A) :
  (forall x, In x l -> P x = false) -> filter P l = [].
Proof.
  induction l as [| x l IH]; intros H; [reflexivity |].
  simpl. rewrite (H x (or_introl eq_refl)).
  apply IH. intros y Hy. apply H. now right.
Qed.

(** C10: when no row of the file table with the requested key is owned by
    the logged-in user, [edit_file] raises [Http404] and leaves every
    table as it was.  No grant is consulted on the way, so an edit grant
    that [can_access_file] honours changes nothing. *)
Theorem edit_file_non_owner_not_found
    (FileEditForm_clean :
       list (string * string) -> UserFile -> World ->
       option (string * string * option Z * string))
    (request : Request) (file_id : Z) (user : User) (w : World) :
  req_user request = Some user ->
  (forall f, In f (files w) -> Models.file_id f = file_id ->
             owner f <> user_id user) ->
  edit_file FileEditForm_clean request file_id w = (Raise Http404, w).
Proof.
  intros Hu Hn. unfold edit_file, login_required. rewrite Hu.
  unfold bind, get_object_or_404, try_except, get.
  rewrite filter_none; [reflexivity |].
  intros f Hf. unfold owned_file.
  destruct (Z.eqb_spec (Models.file_id f) file_id) as [He | He];
    [| reflexivity].
  simpl. apply Z.eqb_neq. now apply Hn.
Qed.

Lemma edit_file_non_owner_not_found_witness :
  let w := world "restricted" [grant "edit" None] 0 in
  let request := post bob [("name", "mine"); ("visibility", "public")]%string in
  can_access_file bob (report "restricted") "edit" w = (Ok true, w) /\
  edit_file clean request 10 w = (Raise Http404, w).
Proof.
  intros w request. split; [reflexivity |].
  apply (edit_file_non_owner_not_found clean request 10 bob w);
    [reflexivity |].
  intros f [<- | []] _. simpl. lia.
Defined.

(** The owner's request with the same form goes through. *)
Example edit_file_owner_saves :
  let w := world "restricted" [grant "edit" None] 0 in
  let request := post alice [("name", "mine"); ("visibility", "public")]%string in
  fst (edit_file clean request 10 w)
  = Ok (Redirect "filemanager:view_file" (Some "File updated successfully!"%string)) /\
  map visibility (files (snd (edit_file clean request 10 w))) = ["public"%string].
Proof. split; reflexivity. Qed.

Lemma store_ok_ext (w w' : World) :
  accesses w' = accesses w -> next_access_id w' = next_access_id w ->
  store_ok w -> store_ok w'.
Proof.
  unfold store_ok, keys_ok. intros -> ->. exact (fun H => H).
Qed.

Lemma NoDup_map_inj_in {A B : Type} (key : A -> B) (l : list A) (x y : A) :
  NoDup (map key l) -> In x l -> In y l -> key x = key y -> x = y.
Proof.
  induction l as [| z l IH]; intros Hnd Hx Hy Hk; [destruct Hx |].
  simpl in Hnd. apply NoDup_cons_iff in Hnd as [Hnotin Hnd].
  destruct Hx as [-> | Hx], Hy as [-> | Hy].
  - reflexivity.
  - exfalso. apply Hnotin. rewrite Hk. now apply in_map.
  - exfalso. apply Hnotin. rewrite <- Hk. now apply in_map.
  - now apply IH.
Qed.

Lemma NoDup_map_filter {A B : Type} (key : A -> B) (P : A -> bool) (l : list A) :
  NoDup (map key l) -> NoDup (map key (filter P l)).
Proof.
  induction l as [| x l IH]; intros Hnd; [constructor |].
  simpl in Hnd. apply NoDup_cons_iff in Hnd as [Hnotin Hnd].
  simpl. destruct (P x); [| now apply IH].
  simpl. constructor; [| now apply IH].
  intros Hin. apply Hnotin.
  apply in_map_iff in Hin as [y [Hy Hiny]].
  apply filter_In in Hiny as [Hiny _].
  rewrite <- Hy. now apply in_map.
Qed.

Lemma store_ok_filter (w : World) (kept : FileAccess -> bool) (w' : World) :
  accesses w' = filter kept (accesses w) ->
  next_access_id w' = next_access_id w ->
  store_ok w -> store_ok w'.
Proof.
  unfold store_ok, keys_ok, unique_together.
  intros -> -> [[Hids Hlt] Hpairs]. repeat split.
  - now apply NoDup_map_filter.
  - intros a Ha. apply filter_In in Ha as [Ha _]. now apply Hlt.
  - now apply NoDup_map_filter.
Qed.

(** A view that only touches the file and activity tables. *)
Lemma edit_file_keeps_grants
    (FileEditForm_clean :
       list (string * string) -> UserFile -> World ->
       option (string * string * option Z * string))
    (request : Request) (file_id : Z) (w : World) :
  accesses (snd (edit_file FileEditForm_clean request file_id w)) = accesses w /\
  next_access_id (snd (edit_file FileEditForm_clean request file_id w))
  = next_access_id w.
Proof.
  unfold edit_file, login_required.
  destruct (req_user request) as [user |]; [| now split].
  unfold bind, get_object_or_404, try_except, reads.
  destruct (get (files w) (owned_file file_id user)) as [f | e]; cbn beta iota.
  - destruct (String.eqb (method request) "POST"); [| now split].
    destruct (FileEditForm_clean (POST request) f w) as [[[[n d] c] v] |];
      now split.
  - destruct (Exn_eqb e DoesNotExist); now split.
Qed.

Lemma remove_access_keeps_store_ok (request : Request) (access_id : Z)
    (w : World) :
  store_ok w -> store_ok (snd (remove_access request access_id w)).
Proof.
  intros Hok. unfold remove_access, login_required.
  destruct (req_user request) as [user |]; [| assumption].
  unfold require_http_methods.
  destruct (contains ["POST"%string] (method request)); [| assumption].
  unfold bind, get_object_or_404, try_except, reads. cbn beta iota.
  destruct (get (accesses w) (owned_access access_id user (files w)))
    as [a | e]; cbn beta iota.
  - destruct (get (users w) (fun u => user_id u =? access_user a))
      as [grantee | e]; cbn beta iota; [| assumption].
    now apply (store_ok_filter w (fun r => negb (Models.access_id r =? Models.access_id a))).
  - destruct (Exn_eqb e DoesNotExist); assumption.
Qed.

Lemma NoDup_snoc {A : Type} (l : list A) (x : A) :
  NoDup l -> ~ In x l -> NoDup (l ++ [x]).
Proof.
  intros Hl Hx. apply NoDup_app; [assumption | repeat constructor; intros [] |].
  intros a Ha [<- | []]. now apply Hx.
Qed.

Lemma same_pair_true (a b : FileAccess) :
  same_pair a b = true <-> pair_of a = pair_of b.
Proof.
  unfold same_pair, pair_of. rewrite andb_true_iff, !Z.eqb_eq.
  split; [intros [-> ->]; reflexivity | intros H; now inversion H].
Qed.

Lemma FileAccess_create_keeps_store_ok (f : UserFile) (u : User)
    (perm : string) (by_user : User) (expiry : option Z) (w : World) :
  store_ok w -> store_ok (snd (FileAccess_create f u perm by_user expiry w)).
Proof.
  intros Hok. unfold FileAccess_create.
  set (row := {| access_id := next_access_id w; access_file := file_id f;
                 access_user := user_id u; permission := perm;
                 granted_by := user_id by_user; expires_at := expiry |}).
  destruct (existsb (same_pair row) (accesses w)) eqn:Hdup; [assumption |].
  destruct Hok as [[Hids Hlt] Hpairs].
  unfold store_ok, keys_ok, unique_together. simpl.
  rewrite !map_app. simpl. repeat split.
  - apply NoDup_snoc; [assumption |].
    intros Hin. apply in_map_iff in Hin as [a [Ha Hin]].
    apply Hlt in Hin. lia.
  - intros a Ha. apply in_app_or in Ha as [Ha | [<- | []]].
    + apply Hlt in Ha. lia.
    + simpl. lia.
  - apply NoDup_snoc; [assumption |].
    intros Hin. apply in_map_iff in Hin as [a [Ha Hin]].
    assert (Hex : existsb (same_pair row) (accesses w) = true).
    { apply existsb_exists. exists a. split; [assumption |].
      apply same_pair_true. now symmetry. }
    congruence.
Qed.

(** Saving over a row of the table, with the key and the pair it had. *)
Lemma FileAccess_save_over (a a' : FileAccess) (w : World) :
  store_ok w -> In a (accesses w) ->
  access_id a' = access_id a -> pair_of a' = pair_of a ->
  FileAccess_save a' w =
  (Ok tt,
   with_accesses
     (map (fun r => if access_id r =? access_id a then a' else r) (accesses w))
     (next_access_id w) w) /\
  store_ok (snd (FileAccess_save a' w)).
Proof.
  intros [[Hids Hlt] Hpairs] Hin Hid Hpair.
  assert (Hsame : forall r, In r (accesses w) -> pair_of a' = pair_of r -> r = a).
  { intros r Hr Hp.
    apply (NoDup_map_inj_in pair_of (accesses w) r a Hpairs Hr Hin).
    congruence. }
  assert (Hrun : FileAccess_save a' w =
    (Ok tt,
     with_accesses
       (map (fun r => if access_id r =? access_id a then a' else r) (accesses w))
       (next_access_id w) w)).
  { unfold FileAccess_save. rewrite Hid.
    replace (existsb _ (accesses w)) with false.
    2:{ symmetry. apply not_true_is_false. intros Hex.
        apply existsb_exists in Hex as [r [Hr Hc]].
        apply andb_true_iff in Hc as [Hp Hne].
        apply same_pair_true in Hp. rewrite (Hsame r Hr Hp) in Hne.
        rewrite Z.eqb_refl in Hne. discriminate. }
    replace (existsb (fun r => access_id r =? access_id a) (accesses w)) with true.
    2:{ symmetry. apply existsb_exists. exists a.
        split; [assumption | apply Z.eqb_refl]. }
    reflexivity. }
  split; [exact Hrun |]. rewrite Hrun.
  unfold store_ok, keys_ok, unique_together. simpl.
  set (over := fun r => if access_id r =? access_id a then a' else r).
  assert (Hk : map access_id (map over (accesses w)) = map access_id (accesses w)).
  { rewrite map_map. apply map_ext. intros r. unfold over.
    destruct (Z.eqb_spec (access_id r) (access_id a)); congruence. }
  assert (Hp : map pair_of (map over (accesses w)) = map pair_of (accesses w)).
  { rewrite map_map. apply map_ext_in. intros r Hr. unfold over.
    destruct (Z.eqb_spec (access_id r) (access_id a)) as [He | He];
      [| reflexivity].
    rewrite (NoDup_map_inj_in access_id (accesses w) r a Hids Hr Hin He).
    exact Hpair. }
  rewrite Hk, Hp. repeat split; try assumption.
  intros r Hr. apply in_map_iff in Hr as [r0 [<- Hr0]]. unfold over.
  destruct (Z.eqb_spec (access_id r0) (access_id a)).
  - rewrite Hid. now apply Hlt.
  - now apply Hlt.
Qed.

Lemma get_ok {A : Type} (rows : list A) (P : A -> bool) (a : A) :
  get rows P = Ok a -> filter P rows = [a] /\ In a rows /\ P a = true.
Proof.
  unfold get. intros H.
  destruct (filter P rows) as [| x [| y rest]] eqn:Hf; try discriminate.
  injection H as ->. split; [reflexivity |].
  apply filter_In. rewrite Hf. now left.
Qed.

Lemma to_expiry_keeps_world (parse_datetime : string -> option Z)
    (posted : option string) (w : World) :
  snd (to_expiry parse_datetime posted w) = w.
Proof.
  unfold to_expiry. destruct posted as [s |]; [| reflexivity].
  destruct (String.eqb s EmptyString); [reflexivity |].
  destruct (parse_datetime s); reflexivity.
Qed.

Section GetOrCreate.

Variable parse_datetime : string -> option Z.
Variables (f : UserFile) (target by_user : User) (perm : string)
          (posted : option string).

Lemma get_or_create_found (w : World) (a : FileAccess) :
  find_grant w f target = Ok a ->
  get_or_create parse_datetime f target perm by_user posted w
  = (Ok (a, false), w).
Proof.
  intros Hg. unfold get_or_create, try_except, bind.
  unfold find_grant in Hg. now rewrite Hg.
Qed.

Lemma get_or_create_not_created (w w' : World) (a : FileAccess) :
  get_or_create parse_datetime f target perm by_user posted w
  = (Ok (a, false), w') ->
  w' = w /\ find_grant w f target = Ok a.
Proof.
  unfold get_or_create, try_except, bind, find_grant.
  destruct (get (accesses w) (grant_of f target)) as [a0 | e];
    cbn beta iota.
  - unfold ret. intros H. inversion H. now split.
  - destruct (Exn_eqb e DoesNotExist); [| discriminate].
    destruct (to_expiry parse_datetime posted w) as [[expiry | e'] w1];
      [| discriminate].
    destruct (FileAccess_create f target perm by_user expiry w1)
      as [[row | e'] w2]; discriminate.
Qed.

Lemma get_or_create_keeps_store_ok (w : World) :
  store_ok w ->
  store_ok (snd (get_or_create parse_datetime f target perm by_user posted w)).
Proof.
  intros Hok. unfold get_or_create, try_except, bind.
  destruct (get (accesses w) (grant_of f target)) as [a0 | e];
    cbn beta iota; [assumption |].
  destruct (Exn_eqb e DoesNotExist); [| assumption].
  pose proof (to_expiry_keeps_world parse_datetime posted w) as Hkeep.
  destruct (to_expiry parse_datetime posted w) as [[expiry | e'] w1];
    simpl in Hkeep; subst w1; [| assumption].
  pose proof (FileAccess_create_keeps_store_ok f target perm by_user expiry w Hok)
    as Hnew.
  destruct (FileAccess_create f target perm by_user expiry w)
    as [[row | e'] w2]; exact Hnew.
Qed.

End GetOrCreate.

Lemma regrant_same_row (a : FileAccess) (perm : string) (expiry : option Z) :
  access_id (regrant a perm expiry) = access_id a /\
  pair_of (regrant a perm expiry) = pair_of a.
Proof. split; reflexivity. Qed.

Lemma share_file_keeps_store_ok (parse_datetime : string -> option Z)
    (request : Request) (file_id : Z) (w : World) :
  store_ok w -> store_ok (snd (share_file parse_datetime request file_id w)).
Proof.
  intros Hok. unfold share_file, login_required.
  destruct (req_user request) as [user |]; [| assumption].
  unfold bind, get_object_or_404, try_except. cbn beta iota.
  destruct (get (files w) (owned_file file_id user)) as [f | e]; cbn beta iota.
  2:{ destruct (Exn_eqb e DoesNotExist); assumption. }
  destruct (negb (String.eqb (visibility f) "restricted")); [assumption |].
  destruct (String.eqb (method request) "POST"); [| assumption].
  cbn beta iota zeta.
  destruct (get (users w) (verified_with_email (dict_get (POST request) "user_email")))
    as [target | e]; cbn beta iota.
  2:{ destruct (Exn_eqb e DoesNotExist); assumption. }
  unfold ret. cbn beta iota.
  set (perm := match dict_get (POST request) "permission" with
               | Some p => p
               | None => "view"%string
               end).
  set (posted := dict_get (POST request) "expires_at").
  pose proof (get_or_create_keeps_store_ok parse_datetime f target user perm
                posted w Hok) as Hgc.
  destruct (get_or_create parse_datetime f target perm user posted w)
    as [[[a created] | e] w1] eqn:Hrun; simpl in Hgc; [| assumption].
  destruct created; cbn beta iota delta [negb]; [assumption |].
  apply get_or_create_not_created in Hrun as [-> Hfound].
  pose proof (to_expiry_keeps_world parse_datetime posted w) as Hkeep.
  destruct (to_expiry parse_datetime posted w) as [[expiry | e] w2];
    simpl in Hkeep; subst w2; cbn beta iota; [| assumption].
  apply get_ok in Hfound as [_ [Hin _]].
  destruct (regrant_same_row a perm expiry) as [Hid Hpair].
  destruct (FileAccess_save_over a (regrant a perm expiry) w Hok Hin Hid Hpair)
    as [Hsave Hok'].
  rewrite Hsave in *. exact Hok'.
Qed.

Lemma filter_map_same {A : Type} (P : A -> bool) (g : A -> A) (l : list A) :
  (forall x, In x l -> P (g x) = P x) ->
  filter P (map g l) = map g (filter P l).
Proof.
  induction l as [| x l IH]; intros H; [reflexivity |].
  simpl. rewrite (H x (or_introl eq_refl)).
  rewrite IH by (intros y Hy; apply H; now right).
  now destruct (P x).
Qed.

(** A second [share_file] for the same user: the row is written over. *)
Lemma share_file_regrants (parse_datetime : string -> option Z)
    (request : Request) (file_id : Z) (w : World)
    (user target : User) (f : UserFile) (a : FileAccess) (expiry : option Z) :
  store_ok w ->
  req_user request = Some user ->
  method request = "POST"%string ->
  get (files w) (owned_file file_id user) = Ok f ->
  visibility f = "restricted"%string ->
  get (users w) (verified_with_email (dict_get (POST request) "user_email"))
  = Ok target ->
  find_grant w f target = Ok a ->
  fst (to_expiry parse_datetime (dict_get (POST request) "expires_at") w)
  = Ok expiry ->
  let perm := match dict_get (POST request) "permission" with
              | Some p => p
              | None => "view"%string
              end in
  let w' := snd (share_file parse_datetime request file_id w) in
  fst (share_file parse_datetime request file_id w)
  = Ok (JsonResponse true ("File shared with " ++ full_name target ++ ".")) /\
  accesses w'
  = map (fun r => if access_id r =? access_id a
                  then regrant a perm expiry else r) (accesses w) /\
  find_grant w' f target = Ok (regrant a perm expiry).
Proof.
  intros Hok Hu Hm Hf Hv Ht Hg He perm w'.
  destruct (get_ok _ _ _ Hg) as [Hfilter [Hin Hmine]].
  destruct (regrant_same_row a perm expiry) as [Hid Hpair].
  destruct (FileAccess_save_over a (regrant a perm expiry) w Hok Hin Hid Hpair)
    as [Hsave _].
  assert (Hrun : share_file parse_datetime request file_id w =
    (Ok (JsonResponse true ("File shared with " ++ full_name target ++ ".")),
     with_activities
       (activities w ++
        [{| activity_file := Models.file_id f; activity_user := user_id user;
            action := "share"; ip_address := get_client_ip request |}])
       (with_accesses
          (map (fun r => if access_id r =? access_id a
                         then regrant a perm expiry else r) (accesses w))
          (next_access_id w) w))).
  { unfold share_file, login_required. rewrite Hu.
    unfold bind, get_object_or_404, try_except. cbn beta iota.
    rewrite Hf. cbn beta iota. rewrite Hv, Hm, !String.eqb_refl.
    cbn beta iota zeta delta [negb].
    rewrite Ht. unfold ret at 1 2. cbn beta iota.
    rewrite (get_or_create_found parse_datetime f target user _ _ w a Hg).
    cbn beta iota delta [negb].
    pose proof (to_expiry_keeps_world parse_datetime
                  (dict_get (POST request) "expires_at") w) as Hkeep.
    destruct (to_expiry parse_datetime (dict_get (POST request) "expires_at") w)
      as [r w1]; simpl in Hkeep, He; subst w1 r. cbn beta iota.
    fold perm. rewrite Hsave. reflexivity. }
  subst w'. rewrite Hrun. simpl. repeat split.
  unfold find_grant, get. simpl.
  rewrite filter_map_same, Hfilter; simpl.
  - now rewrite Z.eqb_refl.
  - intros r Hr.
    destruct (Z.eqb_spec (access_id r) (access_id a)) as [Heq | Hne];
      [| reflexivity].
    destruct Hok as [[Hids _] _].
    now rewrite (NoDup_map_inj_in access_id (accesses w) r a Hids Hr Hin Heq).
Qed.

Lemma reachable_store_ok (parse_datetime : string -> option Z)
    (FileEditForm_clean :
       list (string * string) -> UserFile -> World ->
       option (string * string * option Z * string)) (w : World) :
  reachable parse_datetime FileEditForm_clean w -> store_ok w.
Proof.
  induction 1 as [us fs now | w request fid _ IH | w request aid _ IH
                  | w request fid _ IH | w now _ IH _ | w us fs acts kept _ IH].
  - unfold store_ok, keys_ok, unique_together. simpl.
    repeat split; try constructor. intros a [].
  - now apply share_file_keeps_store_ok.
  - now apply remove_access_keeps_store_ok.
  - destruct (edit_file_keeps_grants FileEditForm_clean request fid w) as [Ha Hn].
    now apply (store_ok_ext w).
  - exact IH.
  - now apply (store_ok_filter w kept).
Qed.

(** C9: in every store the application can get to, the grant table holds
    one row at most for a (file, user) pair; [share_file] keeps it so; and
    when the user the owner shares with already holds a grant on the
    file, that row is written over with the posted permission and expiry,
    every other row stays, and the table is as long as before. *)
Theorem share_file_one_grant_per_pair (parse_datetime : string -> option Z)
    (FileEditForm_clean :
       list (string * string) -> UserFile -> World ->
       option (string * string * option Z * string))
    (request : Request) (file_id : Z) (w : World) :
  reachable parse_datetime FileEditForm_clean w ->
  let w' := snd (share_file parse_datetime request file_id w) in
  let perm := match dict_get (POST request) "permission" with
              | Some p => p
              | None => "view"%string
              end in
  unique_together (accesses w) /\
  unique_together (accesses w') /\
  forall (user target : User) (f : UserFile) (a : FileAccess)
         (expiry : option Z),
    req_user request = Some user ->
    method request = "POST"%string ->
    get (files w) (owned_file file_id user) = Ok f ->
    visibility f = "restricted"%string ->
    get (users w) (verified_with_email (dict_get (POST request) "user_email"))
    = Ok target ->
    find_grant w f target = Ok a ->
    fst (to_expiry parse_datetime (dict_get (POST request) "expires_at") w)
    = Ok expiry ->
    accesses w'
    = map (fun r => if access_id r =? access_id a
                    then regrant a perm expiry else r) (accesses w) /\
    List.length (accesses w') = List.length (accesses w) /\
    find_grant w' f target = Ok (regrant a perm expiry).
Proof.
  intros Hreach w' perm.
  pose proof (reachable_store_ok _ _ _ Hreach) as Hok.
  split; [exact (proj2 Hok) |].
  split; [exact (proj2 (share_file_keeps_store_ok parse_datetime request
                          file_id w Hok)) |].
  intros user target f a expiry Hu Hm Hf Hv Ht Hg He.
  destruct (share_file_regrants parse_datetime request file_id w user target
              f a expiry Hok Hu Hm Hf Hv Ht Hg He) as [_ [Hrows Hfound]].
  fold w' in Hrows, Hfound. fold perm in Hrows, Hfound.
  split; [exact Hrows |]. split; [| exact Hfound].
  rewrite Hrows. apply length_map.
Qed.

Lemma share_file_one_grant_per_pair_witness :
  let w1 := snd (share_file parse share_view 10 start) in
  let w2 := snd (share_file parse share_edit 10 w1) in
  reachable parse clean w1 /\
  accesses w1 = [grant "view" None] /\
  unique_together (accesses w2) /\
  accesses w2 = [grant "edit" (Some 200)] /\
  List.length (accesses w2) = List.length (accesses w1) /\
  find_grant w2 (report "restricted") bob = Ok (grant "edit" (Some 200)).
Proof.
  intros w1 w2.
  assert (Hreach : reachable parse clean w1).
  { apply reach_share. exact (reach_start parse clean _ _ 0). }
  split; [exact Hreach |]. split; [reflexivity |].
  destruct (share_file_one_grant_per_pair parse clean share_edit 10 w1 Hreach)
    as [_ [Hunique Hover]].
  split; [exact Hunique |].
  exact (Hover alice bob (report "restricted") (grant "view" None) (Some 200)
           eq_refl eq_refl eq_refl eq_refl eq_refl eq_refl eq_refl).
Defined.

(** * Further properties of the decision *)

(** X1: the three operations are nested: whoever may edit may download, and
    whoever may download may view, on every store. *)
Theorem can_access_file_levels_nested (user : User) (file_obj : UserFile)
    (w : World) :
  (can_access_file user file_obj "edit" w = (Ok true, w) ->
   can_access_file user file_obj "download" w = (Ok true, w)) /\
  (can_access_file user file_obj "download" w = (Ok true, w) ->
   can_access_file user file_obj "view" w = (Ok true, w)).
Proof.
  unfold can_access_file.
  destruct (owner file_obj =? user_id user); [now split |].
  destruct (String.eqb (visibility file_obj) "public");
    [split; [discriminate | reflexivity] |].
  destruct (String.eqb (visibility file_obj) "private");
    [split; discriminate |].
  destruct (String.eqb (visibility file_obj) "restricted");
    [| split; discriminate].
  unfold bind, try_except, restricted_branch, bind, has_expired.
  destruct (get (accesses w) (grant_of file_obj user)) as [a | e];
    cbn beta iota.
  - destruct (expires_at a) as [t |]; unfold bind, timezone_now, reads, ret;
      cbn beta iota.
    + destruct (t <? clock w); cbn beta iota;
        [split; discriminate |].
      split; [| reflexivity].
      simpl. intros H. injection H as H. apply String.eqb_eq in H.
      now rewrite H.
    + split; [| reflexivity].
      simpl. intros H. injection H as H. apply String.eqb_eq in H.
      now rewrite H.
  - destruct (Exn_eqb e DoesNotExist); cbn beta iota; split; discriminate.
Qed.

Lemma can_access_file_levels_nested_witness :
  let w := world "restricted" [grant "edit" None] 0 in
  can_access_file bob (report "restricted") "download" w = (Ok true, w) /\
  can_access_file bob (report "restricted") "view" w = (Ok true, w).
Proof.
  intros w.
  destruct (can_access_file_levels_nested bob (report "restricted") w)
    as [Hedit Hdownload].
  split; [exact (Hedit eq_refl) | exact (Hdownload (Hedit eq_refl))].
Defined.

(** X2: an operation that is none of view, download and edit is refused to
    everyone but the owner, whatever the visibility and the grant. *)
Theorem can_access_file_unknown_operation (user : User) (file_obj : UserFile)
    (permission_type : string) (w : World) :
  unique_together (accesses w) ->
  owner file_obj <> user_id user ->
  permission_type <> "view"%string ->
  permission_type <> "download"%string ->
  permission_type <> "edit"%string ->
  can_access_file user file_obj permission_type w = (Ok false, w).
Proof.
  intros Hu Hn Hv Hd He.
  apply String.eqb_neq in Hv, Hd, He.
  unfold can_access_file. rewrite (owner_test_fails user file_obj Hn).
  destruct (String.eqb (visibility file_obj) "public").
  { unfold contains. cbn [existsb].
    rewrite (String.eqb_sym "view"), (String.eqb_sym "download"), Hv, Hd.
    reflexivity. }
  destruct (String.eqb (visibility file_obj) "private"); [reflexivity |].
  destruct (String.eqb (visibility file_obj) "restricted"); [| reflexivity].
  unfold bind, try_except, restricted_branch, bind, has_expired.
  rewrite Hv, Hd, He.
  destruct (find_grant_cases w file_obj user Hu) as [Hnone | [a Hg]];
    unfold find_grant in *.
  - rewrite Hnone. reflexivity.
  - rewrite Hg. cbn beta iota.
    destruct (expires_at a) as [t |]; unfold bind, timezone_now, reads, ret;
      cbn beta iota; [destruct (t <? clock w) |]; reflexivity.
Qed.

Lemma can_access_file_unknown_operation_witness :
  let w := world "restricted" [grant "edit" None] 0 in
  can_access_file bob (report "restricted") "delete" w = (Ok false, w).
Proof.
  intros w.
  apply (can_access_file_unknown_operation bob (report "restricted") "delete" w).
  - unfold unique_together; simpl. constructor; [intros [] | constructor].
  - simpl; lia.
  - discriminate.
  - discriminate.
  - discriminate.
Defined.

(** * The detail page *)

Lemma get_by_key (fs : list UserFile) (file_id : Z) (f : UserFile) :
  get fs (fun r => Models.file_id r =? file_id) = Ok f ->
  Models.file_id f = file_id.
Proof.
  intros H. apply get_ok in H as [_ [_ H]]. now apply Z.eqb_eq.
Qed.

(** X3: [view_file] writes one thing only: when it renders the page it adds
    one view row, for this file, this user and this address, to the
    activity table; with any other outcome the store is as it was. *)
Theorem view_file_logs_what_it_shows (request : Request) (file_id : Z)
    (w : World) :
  (fst (view_file request file_id w) = Ok (Render "filemanager/file_detail.html") /\
   exists user, req_user request = Some user /\
     snd (view_file request file_id w)
     = with_activities
         (activities w ++
          [{| activity_file := file_id; activity_user := user_id user;
              action := "view"; ip_address := get_client_ip request |}]) w) \/
  (fst (view_file request file_id w) <> Ok (Render "filemanager/file_detail.html") /\
   snd (view_file request file_id w) = w).
Proof.
  unfold view_file, login_required.
  destruct (req_user request) as [user |]; [| right; split; [discriminate | reflexivity]].
  unfold bind, get_object_or_404, try_except. cbn beta iota.
  destruct (get (files w) (fun f => Models.file_id f =? file_id)) as [f | e] eqn:Hf;
    cbn beta iota.
  2:{ right. destruct (Exn_eqb e DoesNotExist); split;
        try discriminate; reflexivity. }
  pose proof (can_access_file_keeps_world user f "view" w) as Hkeep.
  destruct (can_access_file user f "view" w) as [[[|] | e] w1];
    simpl in Hkeep; subst w1; cbn beta iota delta [negb].
  - left. split; [reflexivity |]. exists user. split; [reflexivity |].
    unfold FileActivity_create, writes, ret. simpl.
    now rewrite (get_by_key _ _ _ Hf).
  - right. split; [discriminate | reflexivity].
  - right. split; [discriminate | reflexivity].
Qed.

(** X4: someone who is not the owner asks for a private file, or for a
    restricted file on which the store has no grant for them or one that
    has expired: the answer is the redirect to the list with the error
    message, and nothing is written. *)
Theorem view_file_denied_leaves_no_trace (request : Request) (file_id : Z)
    (user : User) (f : UserFile) (w : World) :
  req_user request = Some user ->
  get (files w) (fun r => Models.file_id r =? file_id) = Ok f ->
  owner f <> user_id user ->
  (visibility f = "private"%string \/
   visibility f = "restricted"%string /\
   (find_grant w f user = Raise DoesNotExist \/
    exists a t, find_grant w f user = Ok a /\
                expires_at a = Some t /\ t < clock w)) ->
  view_file request file_id w
  = (Ok (Redirect "filemanager:file_list"
           (Some "You do not have permission to view this file."%string)), w).
Proof.
  intros Hu Hf Hn Hcase.
  assert (Hdeny : can_access_file user f "view" w = (Ok false, w)).
  { destruct Hcase as [Hp | [Hr [Hnone | [a [t [Hg [He Hlt]]]]]]].
    - now apply private_denied.
    - now apply restricted_no_grant.
    - now apply (restricted_expired user f Hn "view" w a t). }
  unfold view_file, login_required. rewrite Hu.
  unfold bind, get_object_or_404, try_except. cbn beta iota.
  rewrite Hf. cbn beta iota. rewrite Hdeny. reflexivity.
Qed.

Lemma view_file_denied_leaves_no_trace_witness :
  let w := world "restricted" [grant "edit" (Some 5)] 9 in
  view_file (post bob []) 10 w
  = (Ok (Redirect "filemanager:file_list"
           (Some "You do not have permission to view this file."%string)), w).
Proof.
  intros w.
  apply (view_file_denied_leaves_no_trace (post bob []) 10 bob
           (report "restricted") w);
    [reflexivity | reflexivity | simpl; lia |].
  right. split; [reflexivity |]. right.
  exists (grant "edit" (Some 5)), 5.
  split; [reflexivity |]. split; [reflexivity | simpl; lia].
Defined.

(** X5: the owner, anyone on a public file, and on a restricted file whoever
    holds a grant with no expiry or one still ahead, gets the page, and
    the visit is logged. *)
Theorem view_file_shows_and_logs (request : Request) (file_id : Z)
    (user : User) (f : UserFile) (w : World) :
  req_user request = Some user ->
  get (files w) (fun r => Models.file_id r =? file_id) = Ok f ->
  (owner f = user_id user \/
   visibility f = "public"%string \/
   visibility f = "restricted"%string /\
   exists a, find_grant w f user = Ok a /\
             (expires_at a = None \/
              exists t, expires_at a = Some t /\ clock w < t)) ->
  view_file request file_id w
  = (Ok (Render "filemanager/file_detail.html"),
     with_activities
       (activities w ++
        [{| activity_file := file_id; activity_user := user_id user;
            action := "view"; ip_address := get_client_ip request |}]) w).
Proof.
  intros Hu Hf Hcase.
  assert (Hallow : can_access_file user f "view" w = (Ok true, w)).
  { destruct (Z.eq_dec (owner f) (user_id user)) as [Ho | Hn];
      [now apply owner_allowed |].
    destruct Hcase as [Ho | [Hp | [Hr [a [Hg He]]]]]; [contradiction | |].
    - unfold can_access_file.
      now rewrite (owner_test_fails user f Hn), Hp.
    - apply (restricted_running user f Hn "view" w a Hr Hg).
      destruct He as [He | [t [He Hlt]]]; [now left |].
      right. exists t. split; [assumption | lia]. }
  unfold view_file, login_required. rewrite Hu.
  unfold bind, get_object_or_404, try_except. cbn beta iota.
  rewrite Hf. cbn beta iota. rewrite Hallow.
  unfold FileActivity_create, writes, ret. simpl.
  now rewrite (get_by_key _ _ _ Hf).
Qed.

Lemma view_file_shows_and_logs_witness :
  let w := world "restricted" [grant "view" (Some 8)] 3 in
  view_file (post bob []) 10 w
  = (Ok (Render "filemanager/file_detail.html"),
     with_activities
       [{| activity_file := 10; activity_user := 2; action := "view";
           ip_address := Some "10.0.0.7"%string |}] w).
Proof.
  intros w.
  apply (view_file_shows_and_logs (post bob []) 10 bob (report "restricted") w);
    [reflexivity | reflexivity |].
  right. right. split; [reflexivity |].
  exists (grant "view" (Some 8)). split; [reflexivity |].
  right. exists 8. split; [reflexivity | simpl; lia].
Defined.

(** * Sharing *)

Lemma get_none {A : Type} (rows : list A) (P : A -> bool) :
  get rows P = Raise DoesNotExist -> filter P rows = [].
Proof.
  unfold get. destruct (filter P rows) as [| x [| y rest]];
    [reflexivity | discriminate | discriminate].
Qed.

Lemma same_pair_new_grant (w : World) (f : UserFile) (target by_user : User)
    (perm : string) (expiry : option Z) (r : FileAccess) :
  same_pair (new_grant w f target by_user perm expiry) r = grant_of f target r.
Proof.
  unfold same_pair, grant_of, new_grant. simpl.
  now rewrite (Z.eqb_sym (file_id f)), (Z.eqb_sym (user_id target)).
Qed.

Lemma FileAccess_create_fresh (w : World) (f : UserFile) (target by_user : User)
    (perm : string) (expiry : option Z) :
  find_grant w f target = Raise DoesNotExist ->
  FileAccess_create f target perm by_user expiry w
  = (Ok (new_grant w f target by_user perm expiry),
     with_accesses
       (accesses w ++ [new_grant w f target by_user perm expiry])
       (next_access_id w + 1) w).
Proof.
  intros Hnone. apply get_none in Hnone.
  unfold FileAccess_create. fold (new_grant w f target by_user perm expiry).
  replace (existsb _ (accesses w)) with false; [reflexivity |].
  symmetry. apply not_true_is_false. intros Hex.
  apply existsb_exists in Hex as [r [Hr Hp]].
  rewrite same_pair_new_grant in Hp.
  assert (Hin : In r (filter (grant_of f target) (accesses w)))
    by (apply filter_In; now split).
  rewrite Hnone in Hin. destruct Hin.
Qed.

Lemma get_or_create_made (parse_datetime : string -> option Z)
    (f : UserFile) (target by_user : User) (perm : string)
    (posted : option string) (expiry : option Z) (w : World) :
  find_grant w f target = Raise DoesNotExist ->
  fst (to_expiry parse_datetime posted w) = Ok expiry ->
  get_or_create parse_datetime f target perm by_user posted w
  = (Ok (new_grant w f target by_user perm expiry, true),
     with_accesses
       (accesses w ++ [new_grant w f target by_user perm expiry])
       (next_access_id w + 1) w).
Proof.
  intros Hnone He. unfold get_or_create, try_except, bind.
  pose proof Hnone as Hnone'. unfold find_grant in Hnone'. rewrite Hnone'.
  cbn beta iota delta [Exn_eqb].
  pose proof (to_expiry_keeps_world parse_datetime posted w) as Hkeep.
  destruct (to_expiry parse_datetime posted w) as [r w1];
    simpl in Hkeep, He; subst w1 r.
  rewrite (FileAccess_create_fresh w f target by_user perm expiry Hnone).
  reflexivity.
Qed.

(** A first [share_file] for a user: one row is appended. *)
Lemma share_file_creates (parse_datetime : string -> option Z)
    (request : Request) (file_id : Z) (w : World)
    (user target : User) (f : UserFile) (expiry : option Z) :
  req_user request = Some user ->
  method request = "POST"%string ->
  get (files w) (owned_file file_id user) = Ok f ->
  visibility f = "restricted"%string ->
  get (users w) (verified_with_email (dict_get (POST request) "user_email"))
  = Ok target ->
  find_grant w f target = Raise DoesNotExist ->
  fst (to_expiry parse_datetime (dict_get (POST request) "expires_at") w)
  = Ok expiry ->
  let perm := match dict_get (POST request) "permission" with
              | Some p => p
              | None => "view"%string
              end in
  share_file parse_datetime request file_id w
  = (Ok (JsonResponse true ("File shared with " ++ full_name target ++ ".")),
     with_activities
       (activities w ++
        [{| activity_file := Models.file_id f; activity_user := user_id user;
            action := "share"; ip_address := get_client_ip request |}])
       (with_accesses
          (accesses w ++ [new_grant w f target user perm expiry])
          (next_access_id w + 1) w)).
Proof.
  intros Hu Hm Hf Hv Ht Hg He perm.
  unfold share_file, login_required. rewrite Hu.
  unfold bind, get_object_or_404, try_except. cbn beta iota.
  rewrite Hf. cbn beta iota. rewrite Hv, Hm, !String.eqb_refl.
  cbn beta iota zeta delta [negb].
  rewrite Ht. unfold ret at 1 2. cbn beta iota.
  rewrite (get_or_create_made parse_datetime f target user _ _ expiry w Hg He).
  reflexivity.
Qed.

Lemma Ok_pair_true_iff (b : bool) (w : World) :
  (Ok b, w) = (Ok true, w) <-> b = true.
Proof. split; [now intros [= ->] | now intros ->]. Qed.

(** [share_file] with every guard passed and an expiry that parses: the
    request succeeds and the store then finds one grant for the user,
    with the posted level and expiry, whether one was there before or
    not. *)
Lemma share_file_grants (parse_datetime : string -> option Z)
    (request : Request) (file_id : Z) (w : World)
    (user target : User) (f : UserFile) (expiry : option Z) :
  store_ok w ->
  req_user request = Some user ->
  method request = "POST"%string ->
  get (files w) (owned_file file_id user) = Ok f ->
  visibility f = "restricted"%string ->
  get (users w) (verified_with_email (dict_get (POST request) "user_email"))
  = Ok target ->
  fst (to_expiry parse_datetime (dict_get (POST request) "expires_at") w)
  = Ok expiry ->
  let perm := match dict_get (POST request) "permission" with
              | Some p => p
              | None => "view"%string
              end in
  let w' := snd (share_file parse_datetime request file_id w) in
  fst (share_file parse_datetime request file_id w)
  = Ok (JsonResponse true ("File shared with " ++ full_name target ++ ".")) /\
  clock w' = clock w /\
  exists row, find_grant w' f target = Ok row /\
              permission row = perm /\ expires_at row = expiry.
Proof.
  intros Hok Hu Hm Hf Hv Ht He perm w'.
  destruct (find_grant_cases w f target (proj2 Hok)) as [Hnone | [a Hg]].
  - subst w'.
    rewrite (share_file_creates parse_datetime request file_id w user target
               f expiry Hu Hm Hf Hv Ht Hnone He).
    split; [reflexivity |]. split; [reflexivity |].
    exists (new_grant w f target user perm expiry).
    split; [| split; reflexivity].
    unfold find_grant, get. simpl. rewrite filter_app.
    rewrite (get_none _ _ Hnone). simpl.
    unfold grant_of at 1. simpl. now rewrite !Z.eqb_refl.
  - destruct (share_file_regrants parse_datetime request file_id w user
                target f a expiry Hok Hu Hm Hf Hv Ht Hg He)
      as [Hres [Hrows Hfound]].
    split; [exact Hres |]. split.
    + subst w'. unfold share_file, login_required. rewrite Hu.
      unfold bind, get_object_or_404, try_except. cbn beta iota.
      rewrite Hf. cbn beta iota. rewrite Hv, Hm, !String.eqb_refl.
      cbn beta iota zeta delta [negb].
      rewrite Ht. unfold ret at 1 2. cbn beta iota.
      rewrite (get_or_create_found parse_datetime f target user _ _ w a Hg).
      cbn beta iota delta [negb].
      pose proof (to_expiry_keeps_world parse_datetime
                    (dict_get (POST request) "expires_at") w) as Hkeep.
      destruct (to_expiry parse_datetime
                  (dict_get (POST request) "expires_at") w) as [r w1];
        simpl in Hkeep, He; subst w1 r. cbn beta iota.
      destruct (get_ok _ _ _ Hg) as [_ [Hin _]].
      destruct (regrant_same_row a perm expiry) as [Hid Hpair].
      destruct (FileAccess_save_over a (regrant a perm expiry) w Hok Hin
                  Hid Hpair) as [Hsave _].
      fold perm. rewrite Hsave. reflexivity.
    + exists (regrant a perm expiry). split; [exact Hfound |].
      split; reflexivity.
Qed.

(** X6: share, then ask.  The owner of a restricted file posts [share_file]
    for a verified user with an expiry that parses: the request succeeds,
    the store then finds one grant for that user with the posted level
    and expiry, whether the user held a grant before or not, and, when the
    user is not the owner and the expiry is absent or still ahead, the
    user may view, may download exactly at the levels download and edit,
    and may edit exactly at the level edit. *)
Theorem share_file_then_access (parse_datetime : string -> option Z)
    (request : Request) (file_id : Z) (w : World)
    (user target : User) (f : UserFile) (expiry : option Z) :
  store_ok w ->
  req_user request = Some user ->
  method request = "POST"%string ->
  get (files w) (owned_file file_id user) = Ok f ->
  visibility f = "restricted"%string ->
  get (users w) (verified_with_email (dict_get (POST request) "user_email"))
  = Ok target ->
  fst (to_expiry parse_datetime (dict_get (POST request) "expires_at") w)
  = Ok expiry ->
  let perm := match dict_get (POST request) "permission" with
              | Some p => p
              | None => "view"%string
              end in
  let w' := snd (share_file parse_datetime request file_id w) in
  fst (share_file parse_datetime request file_id w)
  = Ok (JsonResponse true ("File shared with " ++ full_name target ++ ".")) /\
  (exists row, find_grant w' f target = Ok row /\
               permission row = perm /\ expires_at row = expiry) /\
  (owner f <> user_id target ->
   expiry = None \/ (exists t, expiry = Some t /\ clock w < t) ->
   can_access_file target f "view" w' = (Ok true, w') /\
   (can_access_file target f "download" w' = (Ok true, w') <->
    perm = "download"%string \/ perm = "edit"%string) /\
   (can_access_file target f "edit" w' = (Ok true, w') <->
    perm = "edit"%string)).
Proof.
  intros Hok Hu Hm Hf Hv Ht He perm w'.
  destruct (share_file_grants parse_datetime request file_id w user target f
              expiry Hok Hu Hm Hf Hv Ht He)
    as [Hres [Hclock [row [Hrow [Hperm Hexp]]]]].
  fold w' in Hclock, Hrow. fold perm in Hperm.
  split; [exact Hres |]. split; [now exists row |].
  intros Hn Hahead.
  assert (Hrun : forall p,
    can_access_file target f p w' = (Ok (by_level row p), w')).
  { intros p. apply restricted_running; try assumption.
    rewrite Hexp, Hclock.
    destruct Hahead as [-> | [t [-> Hlt]]]; [now left |].
    right. exists t. split; [reflexivity | lia]. }
  rewrite !Hrun, !Ok_pair_true_iff. unfold by_level. simpl.
  rewrite Hperm. split; [reflexivity |].
  split; [apply contains_download_edit | apply String.eqb_eq].
Qed.

Lemma share_file_then_access_witness :
  let w' := snd (share_file parse share_edit 10 start) in
  fst (share_file parse share_edit 10 start)
  = Ok (JsonResponse true "File shared with Bob B.") /\
  can_access_file bob (report "restricted") "view" w' = (Ok true, w') /\
  (can_access_file bob (report "restricted") "edit" w' = (Ok true, w') <->
   "edit"%string = "edit"%string).
Proof.
  intros w'.
  destruct (share_file_then_access parse share_edit 10 start alice bob
              (report "restricted") (Some 200))
    as [Hres [_ Hask]].
  - repeat split; simpl; try constructor. intros a [].
  - reflexivity.
  - reflexivity.
  - reflexivity.
  - reflexivity.
  - reflexivity.
  - reflexivity.
  - split; [exact Hres |].
    destruct Hask as [Hview [_ Hedit]].
    + simpl; lia.
    + right. exists 200. split; [reflexivity | simpl; lia].
    + split; [exact Hview | exact Hedit].
Defined.

(** X7: the grant table changes under [share_file] only when every guard
    holds: the requester is logged in and owns the file, the file is
    restricted, the method is POST, and the posted e-mail is that of one
    verified user. *)
Theorem share_file_guards (parse_datetime : string -> option Z)
    (request : Request) (file_id : Z) (w : World) :
  accesses (snd (share_file parse_datetime request file_id w)) <> accesses w ->
  exists (user target : User) (f : UserFile) (e : string),
    req_user request = Some user /\
    In f (files w) /\ Models.file_id f = file_id /\ owner f = user_id user /\
    visibility f = "restricted"%string /\
    method request = "POST"%string /\
    dict_get (POST request) "user_email" = Some e /\
    In target (users w) /\ email target = e /\ is_verified target = true.
Proof.
  unfold share_file, login_required.
  destruct (req_user request) as [user |]; [| intros H; now elim H].
  unfold bind, get_object_or_404, try_except. cbn beta iota.
  destruct (get (files w) (owned_file file_id user)) as [f | e] eqn:Hf;
    cbn beta iota.
  2:{ destruct (Exn_eqb e DoesNotExist); intros H; now elim H. }
  destruct (String.eqb (visibility f) "restricted") eqn:Hv;
    cbn beta iota delta [negb]; [| intros H; now elim H].
  destruct (String.eqb (method request) "POST") eqn:Hm;
    [| intros H; now elim H].
  cbn beta iota zeta.
  destruct (get (users w)
              (verified_with_email (dict_get (POST request) "user_email")))
    as [target | e] eqn:Ht; cbn beta iota.
  2:{ destruct (Exn_eqb e DoesNotExist); intros H; now elim H. }
  intros _.
  apply get_ok in Hf as [_ [Hfin Hfown]].
  apply get_ok in Ht as [_ [Htin Htok]].
  unfold owned_file in Hfown. apply andb_true_iff in Hfown as [Hid Hown].
  unfold verified_with_email in Htok. apply andb_true_iff in Htok as [Hmail Hver].
  destruct (dict_get (POST request) "user_email") as [e |]; [| discriminate].
  exists user, target, f, e.
  apply Z.eqb_eq in Hid, Hown. apply String.eqb_eq in Hv, Hm, Hmail.
  repeat split; assumption.
Qed.

Lemma share_file_guards_witness :
  exists (user target : User) (f : UserFile) (e : string),
    req_user share_view = Some user /\
    In f (files start) /\ Models.file_id f = 10 /\ owner f = user_id user /\
    visibility f = "restricted"%string /\
    method share_view = "POST"%string /\
    dict_get (POST share_view) "user_email" = Some e /\
    In target (users start) /\ email target = e /\ is_verified target = true.
Proof.
  apply (share_file_guards parse share_view 10 start).
  simpl. discriminate.
Defined.

(** What [share_file] does to the grant table, one of three things. *)
Lemma share_file_grant_table (parse_datetime : string -> option Z)
    (request : Request) (file_id : Z) (w : World) :
  store_ok w ->
  let rows' := accesses (snd (share_file parse_datetime request file_id w)) in
  rows' = accesses w \/
  (exists row, rows' = accesses w ++ [row]) \/
  (exists a perm expiry,
     In a (accesses w) /\
     rows' = map (fun r => if access_id r =? access_id a
                           then regrant a perm expiry else r) (accesses w)).
Proof.
  intros Hok. unfold share_file, login_required.
  destruct (req_user request) as [user |]; [| now left].
  unfold bind, get_object_or_404, try_except. cbn beta iota.
  destruct (get (files w) (owned_file file_id user)) as [f | e]; cbn beta iota.
  2:{ destruct (Exn_eqb e DoesNotExist); now left. }
  destruct (negb (String.eqb (visibility f) "restricted")); [now left |].
  destruct (String.eqb (method request) "POST"); [| now left].
  cbn beta iota zeta.
  destruct (get (users w) (verified_with_email (dict_get (POST request) "user_email")))
    as [target | e]; cbn beta iota.
  2:{ destruct (Exn_eqb e DoesNotExist); now left. }
  unfold ret. cbn beta iota.
  set (perm := match dict_get (POST request) "permission" with
               | Some p => p
               | None => "view"%string
               end).
  set (posted := dict_get (POST request) "expires_at").
  destruct (get_or_create parse_datetime f target perm user posted w)
    as [[[a created] | e] w1] eqn:Hrun.
  - destruct created; cbn beta iota delta [negb].
    + (* a row was made *)
      unfold get_or_create, try_except, bind in Hrun.
      destruct (get (accesses w) (grant_of f target)) as [a0 | e];
        cbn beta iota in Hrun; [discriminate |].
      destruct (Exn_eqb e DoesNotExist); [| discriminate].
      pose proof (to_expiry_keeps_world parse_datetime posted w) as Hkeep.
      destruct (to_expiry parse_datetime posted w) as [[expiry | e'] w2];
        simpl in Hkeep; subst w2; [| discriminate].
      unfold FileAccess_create in Hrun.
      destruct (existsb _ (accesses w)); [discriminate |].
      unfold ret in Hrun. injection Hrun as <- <-.
      right. left. eexists. reflexivity.
    + apply get_or_create_not_created in Hrun as [-> Hfound].
      pose proof (to_expiry_keeps_world parse_datetime posted w) as Hkeep.
      destruct (to_expiry parse_datetime posted w) as [[expiry | e] w2];
        simpl in Hkeep; subst w2; cbn beta iota; [| now left].
      apply get_ok in Hfound as [_ [Hin _]].
      destruct (regrant_same_row a perm expiry) as [Hid Hpair].
      destruct (FileAccess_save_over a (regrant a perm expiry) w Hok Hin Hid Hpair)
        as [Hsave _].
      rewrite Hsave. right. right. exists a, perm, expiry. now split.
  - cbn beta iota.
    unfold get_or_create, try_except, bind in Hrun.
    destruct (get (accesses w) (grant_of f target)) as [a0 | e0];
      cbn beta iota in Hrun; [discriminate |].
    destruct (Exn_eqb e0 DoesNotExist).
    2:{ injection Hrun as _ <-. now left. }
    pose proof (to_expiry_keeps_world parse_datetime posted w) as Hkeep.
    destruct (to_expiry parse_datetime posted w) as [[expiry | e'] w2];
      simpl in Hkeep; subst w2.
    2:{ injection Hrun as _ <-. now left. }
    unfold FileAccess_create in Hrun.
    destruct (existsb _ (accesses w)); [| discriminate].
    injection Hrun as _ <-. now left.
Qed.

(** X8: [share_file] never takes a grant away: every row of the table is
    still there afterwards with its key, file, user and granter, and the
    table grows by one row at most. *)
Theorem share_file_never_revokes (parse_datetime : string -> option Z)
    (request : Request) (file_id : Z) (w : World) :
  store_ok w ->
  let rows' := accesses (snd (share_file parse_datetime request file_id w)) in
  (forall r, In r (accesses w) ->
     exists r', In r' rows' /\ access_id r' = access_id r /\
                pair_of r' = pair_of r /\ granted_by r' = granted_by r) /\
  (List.length (accesses w) <= List.length rows' <= List.length (accesses w) + 1)%nat.
Proof.
  intros Hok rows'.
  destruct (share_file_grant_table parse_datetime request file_id w Hok)
    as [Hsame | [[row Happ] | [a [perm [expiry [Hin Hmap]]]]]];
    fold rows' in Hsame || fold rows' in Happ || fold rows' in Hmap.
  - rewrite Hsame. split; [| lia].
    intros r Hr. exists r. now repeat split.
  - rewrite Happ. split.
    + intros r Hr. exists r. repeat split. apply in_or_app. now left.
    + rewrite length_app. simpl. lia.
  - rewrite Hmap. split; [| rewrite length_map; lia].
    intros r Hr.
    exists (if access_id r =? access_id a then regrant a perm expiry else r).
    split.
    { apply (in_map (fun r0 => if access_id r0 =? access_id a
                               then regrant a perm expiry else r0)
               (accesses w) r Hr). }
    destruct (Z.eqb_spec (access_id r) (access_id a)) as [He | He];
      [| now repeat split].
    destruct Hok as [[Hids _] _].
    rewrite (NoDup_map_inj_in access_id (accesses w) r a Hids Hr Hin He).
    now repeat split.
Qed.

Lemma share_file_never_revokes_witness :
  let w1 := snd (share_file parse share_view 10 start) in
  let rows' := accesses (snd (share_file parse share_edit 10 w1)) in
  (forall r, In r (accesses w1) ->
     exists r', In r' rows' /\ access_id r' = access_id r /\
                pair_of r' = pair_of r /\ granted_by r' = granted_by r) /\
  (List.length (accesses w1) <= List.length rows' <= List.length (accesses w1) + 1)%nat.
Proof.
  intros w1.
  apply (share_file_never_revokes parse share_edit 10 w1).
  apply (share_file_keeps_store_ok parse share_view 10 start).
  repeat split; simpl; try constructor. intros a [].
Defined.

(** * Taking a grant back *)

(** X10: the owner of the file posts [remove_access] for a grant: that row,
    and no other, leaves the table, and from then on the user it named is
    refused every operation on the file while it is restricted. *)
Theorem remove_access_revokes (request : Request) (access_id : Z)
    (user grantee : User) (a : FileAccess) (w : World) :
  store_ok w ->
  req_user request = Some user ->
  method request = "POST"%string ->
  get (accesses w) (owned_access access_id user (files w)) = Ok a ->
  get (users w) (fun u => user_id u =? access_user a) = Ok grantee ->
  let w' := snd (remove_access request access_id w) in
  fst (remove_access request access_id w)
  = Ok (JsonResponse true ("Access removed for " ++ full_name grantee ++ ".")) /\
  (forall r, In r (accesses w') <-> In r (accesses w) /\ r <> a) /\
  (forall (f : UserFile) (u : User) (p : string),
     file_id f = access_file a -> user_id u = access_user a ->
     visibility f = "restricted"%string -> owner f <> user_id u ->
     can_access_file u f p w' = (Ok false, w')).
Proof.
  intros [[Hids _] Hpairs] Hu Hm Ha Hg w'.
  assert (Hrun : remove_access request access_id w =
    (Ok (JsonResponse true ("Access removed for " ++ full_name grantee ++ ".")),
     with_accesses
       (filter (fun r => negb (Models.access_id r =? Models.access_id a))
          (accesses w))
       (next_access_id w) w)).
  { unfold remove_access, login_required, require_http_methods.
    rewrite Hu, Hm.
    replace (contains ["POST"%string] "POST") with true by reflexivity.
    unfold bind, get_object_or_404, try_except, reads. cbn beta iota.
    rewrite Ha. cbn beta iota. rewrite Hg. reflexivity. }
  destruct (get_ok _ _ _ Ha) as [_ [Hin _]].
  subst w'. rewrite Hrun. simpl.
  assert (Hrows : forall r,
    In r (filter (fun r => negb (Models.access_id r =? Models.access_id a))
            (accesses w)) <-> In r (accesses w) /\ r <> a).
  { intros r. rewrite filter_In, negb_true_iff, Z.eqb_neq. split.
    - intros [Hr Hne]. split; [assumption | congruence].
    - intros [Hr Hne]. split; [assumption |].
      intros He. apply Hne.
      exact (NoDup_map_inj_in Models.access_id (accesses w) r a Hids Hr Hin He). }
  split; [reflexivity |]. split; [exact Hrows |].
  intros f u p Hf Hua Hv Hn.
  apply restricted_no_grant; try assumption.
  unfold find_grant, get. simpl.
  rewrite filter_none; [reflexivity |].
  intros r Hr. apply Hrows in Hr as [Hr Hne].
  apply not_true_is_false. intros Hgr. apply Hne.
  apply grant_of_pair in Hgr.
  apply (NoDup_map_inj_in pair_of (accesses w) r a Hpairs Hr Hin).
  rewrite Hgr. unfold pair_of. congruence.
Qed.

Lemma remove_access_revokes_witness :
  let w := world "restricted" [grant "edit" None] 0 in
  let w' := snd (remove_access (post alice []) 1 w) in
  fst (remove_access (post alice []) 1 w)
  = Ok (JsonResponse true "Access removed for Bob B.") /\
  can_access_file bob (report "restricted") "view" w' = (Ok false, w').
Proof.
  intros w w'.
  destruct (remove_access_revokes (post alice []) 1 alice bob
              (grant "edit" None) w) as [Hres [_ Hdeny]].
  - repeat split; simpl.
    + constructor; [intros [] | constructor].
    + intros a [<- | []]. simpl. lia.
    + constructor; [intros [] | constructor].
  - reflexivity.
  - reflexivity.
  - reflexivity.
  - reflexivity.
  - split; [exact Hres |].
    apply (Hdeny (report "restricted") bob "view"%string);
      [reflexivity | reflexivity | reflexivity | simpl; lia].
Defined.

(** X11: nobody but the owner of the file takes a grant back: when no grant
    with the requested key sits on a file of the requester, the store is
    left as it was, and a POST is answered with [Http404].  The user the
    grant names is no exception. *)
Theorem remove_access_only_by_owner (request : Request) (access_id : Z)
    (user : User) (w : World) :
  req_user request = Some user ->
  (forall a f, In a (accesses w) -> Models.access_id a = access_id ->
               In f (files w) -> file_id f = access_file a ->
               owner f <> user_id user) ->
  snd (remove_access request access_id w) = w /\
  (method request = "POST"%string ->
   fst (remove_access request access_id w) = Raise Http404).
Proof.
  intros Hu Hforeign.
  assert (Hnone : filter (owned_access access_id user (files w)) (accesses w) = []).
  { apply filter_none. intros a Ha. unfold owned_access.
    destruct (Z.eqb_spec (Models.access_id a) access_id) as [He | He];
      [| reflexivity].
    simpl. apply not_true_is_false. intros Hex.
    apply existsb_exists in Hex as [f [Hf Hc]].
    apply andb_true_iff in Hc as [Hid Hown]. apply Z.eqb_eq in Hid, Hown.
    exact (Hforeign a f Ha He Hf Hid Hown). }
  unfold remove_access, login_required, require_http_methods. rewrite Hu.
  destruct (contains ["POST"%string] (method request)) eqn:Hpost.
  - unfold bind, get_object_or_404, try_except, reads, get. cbn beta iota.
    rewrite Hnone. split; reflexivity.
  - split; [reflexivity |]. intros Hm. rewrite Hm in Hpost. discriminate.
Qed.

Lemma remove_access_only_by_owner_witness :
  let w := world "restricted" [grant "edit" None] 0 in
  snd (remove_access (post bob []) 1 w) = w /\
  fst (remove_access (post bob []) 1 w) = Raise Http404.
Proof.
  intros w.
  destruct (remove_access_only_by_owner (post bob []) 1 bob w) as [Hkeep H404].
  - reflexivity.
  - intros a f _ _ [<- | []] _. simpl. lia.
  - split; [exact Hkeep | exact (H404 eq_refl)].
Defined.

(** * The list of shared files *)

Lemma accessible_files_listed (user : User) (w : World) (f : UserFile) :
  accessible_files user w
  = (Ok (filter (fun f =>
           existsb (fun a => (access_file a =? file_id f) &&
                             (access_user a =? user_id user)) (accesses w) &&
           existsb (fun a => (access_file a =? file_id f) &&
                             running_at (clock w) a) (accesses w))
           (files w)), w).
Proof. reflexivity. Qed.

Lemma listed_iff (user : User) (w : World) (f : UserFile) (l : list UserFile) :
  fst (accessible_files user w) = Ok l ->
  (In f l <->
   In f (files w) /\
   (exists a, In a (accesses w) /\ access_file a = file_id f /\
              access_user a = user_id user) /\
   (exists b, In b (accesses w) /\ access_file b = file_id f /\
              running_at (clock w) b = true)).
Proof.
  rewrite (accessible_files_listed user w f). simpl. intros [= <-].
  rewrite filter_In, andb_true_iff, !existsb_exists.
  split.
  - intros [Hf [[a [Ha Hc]] [b [Hb Hd]]]].
    apply andb_true_iff in Hc as [Hc1 Hc2].
    apply andb_true_iff in Hd as [Hd1 Hd2].
    apply Z.eqb_eq in Hc1, Hc2, Hd1.
    split; [assumption |]. split; [now exists a | now exists b].
  - intros [Hf [[a [Ha [Hc1 Hc2]]] [b [Hb [Hd1 Hd2]]]]].
    split; [assumption |]. split.
    + exists a. split; [assumption |].
      apply andb_true_iff. now rewrite !Z.eqb_eq.
    + exists b. split; [assumption |].
      apply andb_true_iff. now rewrite Z.eqb_eq.
Qed.

(** X12: whatever a user may view through a grant that runs past now is on
    the user's list of shared files: a restricted file of the table, a
    user who is not its owner, a grant with no expiry or one later than
    now. *)
Theorem shared_files_lists_what_a_grant_opens (user : User) (f : UserFile)
    (a : FileAccess) (w : World) (l : list UserFile) :
  In f (files w) ->
  visibility f = "restricted"%string ->
  owner f <> user_id user ->
  find_grant w f user = Ok a ->
  (expires_at a = None \/ exists t, expires_at a = Some t /\ clock w < t) ->
  fst (accessible_files user w) = Ok l ->
  can_access_file user f "view" w = (Ok true, w) /\ In f l.
Proof.
  intros Hf Hv Hn Hg He Hl. split.
  - apply (restricted_running user f Hn "view" w a Hv Hg).
    destruct He as [He | [t [He Hlt]]]; [now left |].
    right. exists t. split; [assumption | lia].
  - apply (listed_iff user w f l Hl).
    apply get_ok in Hg as [_ [Hin Hmine]].
    apply grant_of_pair in Hmine. injection Hmine as Hfile Huser.
    split; [assumption |]. split; [now exists a |].
    exists a. split; [assumption |]. split; [assumption |].
    unfold running_at.
    destruct He as [-> | [t [-> Hlt]]]; [reflexivity | now apply Z.ltb_lt].
Qed.

Lemma shared_files_lists_what_a_grant_opens_witness :
  let w := world "restricted" [grant "view" (Some 8)] 3 in
  can_access_file bob (report "restricted") "view" w = (Ok true, w) /\
  In (report "restricted") [report "restricted"].
Proof.
  intros w.
  apply (shared_files_lists_what_a_grant_opens bob (report "restricted")
           (grant "view" (Some 8)) w [report "restricted"]).
  - now left.
  - reflexivity.
  - simpl; lia.
  - reflexivity.
  - right. exists 8. split; [reflexivity | simpl; lia].
  - reflexivity.
Defined.

(** X13: the list is wider than the decision.  A file stays on a user's list
    of shared files, though [can_access_file] refuses the user, when the
    file has been made private while the user's grant runs, and when the
    user's own grant has expired but some grant on the file, of whatever
    user, still runs. *)
Theorem shared_files_lists_what_is_refused (user : User) (f : UserFile)
    (a : FileAccess) (w : World) (l : list UserFile) :
  In f (files w) ->
  owner f <> user_id user ->
  find_grant w f user = Ok a ->
  (visibility f = "private"%string /\ running_at (clock w) a = true \/
   visibility f = "restricted"%string /\
   (exists t, expires_at a = Some t /\ t < clock w) /\
   (exists b, In b (accesses w) /\ access_file b = file_id f /\
              running_at (clock w) b = true)) ->
  fst (accessible_files user w) = Ok l ->
  In f l /\ can_access_file user f "view" w = (Ok false, w).
Proof.
  intros Hf Hn Hg Hcase Hl.
  pose proof Hg as Hg'.
  apply get_ok in Hg' as [_ [Hin Hmine]].
  apply grant_of_pair in Hmine. injection Hmine as Hfile Huser.
  split.
  - apply (listed_iff user w f l Hl).
    split; [assumption |]. split; [now exists a |].
    destruct Hcase as [[_ Hrun] | [_ [_ Hother]]]; [now exists a | exact Hother].
  - destruct Hcase as [[Hp _] | [Hr [[t [He Hlt]] _]]].
    + now apply private_denied.
    + now apply (restricted_expired user f Hn "view" w a t).
Qed.

Lemma shared_files_lists_what_is_refused_witness :
  let carol_grant :=
    {| access_id := 2; access_file := 10; access_user := 3;
       permission := "view"; granted_by := 1; expires_at := None |} in
  let w := world "restricted" [grant "edit" (Some 5); carol_grant] 9 in
  In (report "restricted") [report "restricted"] /\
  can_access_file bob (report "restricted") "view" w = (Ok false, w).
Proof.
  intros carol_grant w.
  apply (shared_files_lists_what_is_refused bob (report "restricted")
           (grant "edit" (Some 5)) w [report "restricted"]).
  - now left.
  - simpl; lia.
  - reflexivity.
  - right. split; [reflexivity |]. split.
    + exists 5. split; [reflexivity | simpl; lia].
    + exists carol_grant. split; [right; now left |]. split; reflexivity.
  - reflexivity.
Defined.

(** * Editing a file *)

(** X14: on a file table with distinct keys, [edit_file] never changes the
    key, the owner, the favourite mark or the download count of any file,
    adds and removes no file, and leaves the grant table alone, whoever
    asks and whatever is posted. *)
Theorem edit_file_keeps_identity
    (FileEditForm_clean :
       list (string * string) -> UserFile -> World ->
       option (string * string * option Z * string))
    (request : Request) (file_id : Z) (w : World) :
  NoDup (map Models.file_id (files w)) ->
  let w' := snd (edit_file FileEditForm_clean request file_id w) in
  map (fun r => (Models.file_id r, owner r, is_favorite r, download_count r))
    (files w')
  = map (fun r => (Models.file_id r, owner r, is_favorite r, download_count r))
      (files w) /\
  accesses w' = accesses w.
Proof.
  intros Hkeys w'. subst w'.
  split; [| apply edit_file_keeps_grants].
  unfold edit_file, login_required.
  destruct (req_user request) as [user |]; [| reflexivity].
  unfold bind, get_object_or_404, try_except, reads.
  destruct (get (files w) (owned_file file_id user)) as [f | e] eqn:Hf;
    cbn beta iota.
  2:{ destruct (Exn_eqb e DoesNotExist); reflexivity. }
  destruct (String.eqb (method request) "POST"); [| reflexivity].
  destruct (FileEditForm_clean (POST request) f w) as [[[[n d] c] v] |];
    [| reflexivity].
  apply get_ok in Hf as [_ [Hin _]].
  unfold UserFile_save, FileActivity_create, writes, ret. simpl.
  replace (existsb (fun r => Models.file_id r =? Models.file_id f) (files w))
    with true.
  2:{ symmetry. apply existsb_exists. exists f.
      split; [assumption | apply Z.eqb_refl]. }
  rewrite map_map. apply map_ext_in. intros r Hr.
  destruct (Z.eqb_spec (Models.file_id r) (Models.file_id f)) as [He | He];
    [| reflexivity].
  now rewrite (NoDup_map_inj_in Models.file_id (files w) r f Hkeys Hr Hin He).
Qed.

Lemma edit_file_keeps_identity_witness :
  let w := world "restricted" [grant "edit" None] 0 in
  let request := post alice [("name", "mine"); ("visibility", "private")]%string in
  let w' := snd (edit_file clean request 10 w) in
  map (fun r => (Models.file_id r, owner r, is_favorite r, download_count r))
    (files w')
  = map (fun r => (Models.file_id r, owner r, is_favorite r, download_count r))
      (files w) /\
  accesses w' = accesses w.
Proof.
  intros w request.
  apply (edit_file_keeps_identity clean request 10 w).
  simpl. constructor; [intros [] | constructor].
Defined.



(** * The client address and the upload path *)

Lemma before_comma_split (s : string) :
  s = before_comma s \/
  exists rest, s = (before_comma s ++ String ","%char rest)%string.
Proof.
  induction s as [| c s IH]; [now left |].
  simpl. destruct (Ascii.eqb_spec c ","%char) as [-> | Hc].
  - right. now exists s.
  - destruct IH as [IH | [rest IH]].
    + left. simpl. now f_equal.
    + right. exists rest. simpl. now f_equal.
Qed.

Lemma before_comma_has_no_comma (s : string) :
  ~ In ","%char (list_ascii_of_string (before_comma s)).
Proof.
  induction s as [| c s IH]; [intros [] |].
  simpl. destruct (Ascii.eqb_spec c ","%char) as [-> | Hc]; [intros [] |].
  simpl. intros [H | H]; [now apply Hc | now apply IH].
Qed.

(** X19: with a forwarding header that is not empty, [get_client_ip] answers
    the header up to its first comma, the whole header when it has none;
    the answer holds no comma, and [REMOTE_ADDR] is not looked at.  With
    the header missing or empty, the answer is [REMOTE_ADDR], or [None]
    when that is missing too. *)
Theorem get_client_ip_first_hop (request : Request) :
  (forall x, dict_get (META request) "HTTP_X_FORWARDED_FOR" = Some x ->
             x <> EmptyString ->
             exists ip, get_client_ip request = Some ip /\
                        (x = ip \/ exists rest, x = (ip ++ String ","%char rest)%string) /\
                        ~ In ","%char (list_ascii_of_string ip)) /\
  (dict_get (META request) "HTTP_X_FORWARDED_FOR" = None \/
   dict_get (META request) "HTTP_X_FORWARDED_FOR" = Some EmptyString ->
   get_client_ip request = dict_get (META request) "REMOTE_ADDR").
Proof.
  unfold get_client_ip. split.
  - intros x Hx Hne. rewrite Hx.
    apply String.eqb_neq in Hne. rewrite Hne.
    exists (before_comma x). split; [reflexivity |].
    split; [apply before_comma_split | apply before_comma_has_no_comma].
  - intros [-> | ->]; reflexivity.
Qed.

Lemma get_client_ip_first_hop_witness :
  let request :=
    {| req_user := None; method := "GET"; POST := [];
       META := [("HTTP_X_FORWARDED_FOR", "203.0.113.9, 10.0.0.1");
                ("REMOTE_ADDR", "10.0.0.7")]%string |} in
  exists ip, get_client_ip request = Some ip /\
             ("203.0.113.9, 10.0.0.1"%string = ip \/
              exists rest, "203.0.113.9, 10.0.0.1"%string
                           = (ip ++ String ","%char rest)%string) /\
             ~ In ","%char (list_ascii_of_string ip).
Proof.
  intros request.
  apply (proj1 (get_client_ip_first_hop request) "203.0.113.9, 10.0.0.1"%string);
    [reflexivity | discriminate].
Defined.

Lemma append_cancel_prefix (p a b : string) :
  (p ++ a)%string = (p ++ b)%string -> a = b.
Proof.
  induction p as [| c p IH]; simpl; [trivial |].
  intros H. inversion H as [Hrest]. now apply IH.
Qed.

(** Two strings free of [c], each followed by [c] and a rest: equal wholes
    have equal parts. *)
Lemma split_at_first (c : ascii) (s1 s2 r1 r2 : string) :
  ~ In c (list_ascii_of_string s1) ->
  ~ In c (list_ascii_of_string s2) ->
  (s1 ++ String c r1)%string = (s2 ++ String c r2)%string ->
  s1 = s2 /\ r1 = r2.
Proof.
  revert s2. induction s1 as [| a s1 IH]; intros [| b s2] H1 H2 H; simpl in *.
  - inversion H. now split.
  - inversion H as [[Hc Hrest]]. exfalso. apply H2. now left.
  - inversion H as [[Hc Hrest]]. exfalso. apply H1. now left.
  - inversion H as [[Hab Hrest]].
    destruct (IH s2) as [Hs Hr]; try assumption.
    + intros Hin. apply H1. now right.
    + intros Hin. apply H2. now right.
    + split; [now f_equal | assumption].
Qed.

Lemma uint_digits_no_slash (d : Decimal.uint) :
  ~ In "/"%char (list_ascii_of_string (DecimalString.NilEmpty.string_of_uint d)).
Proof.
  induction d as [| d IHd | d IHd | d IHd | d IHd | d IHd | d IHd | d IHd
                  | d IHd | d IHd | d IHd]; simpl;
    [intros [] | intros [H | H]; [discriminate H | now apply IHd] ..].
Qed.

Lemma str_int_no_slash (n : Z) :
  ~ In "/"%char (list_ascii_of_string (str_int n)).
Proof.
  assert (Hu : forall d,
    ~ In "/"%char (list_ascii_of_string (DecimalString.NilZero.string_of_uint d))).
  { intros d. unfold DecimalString.NilZero.string_of_uint.
    destruct d; try apply uint_digits_no_slash.
    simpl. intros [H | []]. discriminate H. }
  unfold str_int, DecimalString.NilZero.string_of_int.
  destruct (Z.to_int n) as [d | d]; [apply Hu |].
  simpl. intros [H | H]; [discriminate H | now apply (Hu d)].
Qed.

Lemma str_int_injective (a b : Z) : str_int a = str_int b -> a = b.
Proof.
  unfold str_int. intros H.
  assert (Hparse : forall n,
    DecimalString.NilZero.int_of_string
      (DecimalString.NilZero.string_of_int (Z.to_int n)) = Some (Z.to_int n)).
  { intros n. apply DecimalString.NilZero.isi; destruct n; simpl;
      try discriminate;
      intros [= E]; now apply (DecimalPos.Unsigned.to_uint_nonnil p). }
  pose proof (Hparse a) as Ha. rewrite H, Hparse in Ha.
  injection Ha as Ha.
  rewrite <- (DecimalZ.of_to a), <- (DecimalZ.of_to b). now rewrite Ha.
Qed.

(** X20: the upload path tells the owner and the file name apart: two uploads
    with one path have one owner and one name, so the uploads of two
    users never meet. *)
Theorem user_directory_path_injective (f1 f2 : UserFile) (n1 n2 : string) :
  user_directory_path f1 n1 = user_directory_path f2 n2 ->
  owner f1 = owner f2 /\ n1 = n2.
Proof.
  unfold user_directory_path. intros H.
  apply append_cancel_prefix in H.
  apply split_at_first in H as [Hid Hname];
    try apply str_int_no_slash.
  split; [now apply str_int_injective | assumption].
Qed.

Lemma user_directory_path_injective_witness :
  user_directory_path (report "public") "a.pdf" = "uploads/user_1/a.pdf"%string /\
  owner (report "public") = owner (report "private") /\
  "a.pdf"%string = "a.pdf"%string.
Proof.
  split; [reflexivity |].
  apply (user_directory_path_injective (report "public") (report "private")).
  reflexivity.
Defined.

(** * Sharing again *)

Lemma get_or_create_keeps_rest (parse_datetime : string -> option Z)
    (f : UserFile) (target by_user : User) (perm : string)
    (posted : option string) (w : World) :
  same_users_files_clock w
    (snd (get_or_create parse_datetime f target perm by_user posted w)).
Proof.
  unfold get_or_create, try_except, bind.
  destruct (get (accesses w) (grant_of f target)) as [a0 | e];
    cbn beta iota; [now repeat split |].
  destruct (Exn_eqb e DoesNotExist); [| now repeat split].
  pose proof (to_expiry_keeps_world parse_datetime posted w) as Hkeep.
  destruct (to_expiry parse_datetime posted w) as [[expiry | e'] w1];
    simpl in Hkeep; subst w1; [| now repeat split].
  unfold FileAccess_create.
  destruct (existsb _ (accesses w)); now repeat split.
Qed.

Lemma FileAccess_save_keeps_rest (a : FileAccess) (w : World) :
  same_users_files_clock w (snd (FileAccess_save a w)).
Proof.
  unfold FileAccess_save.
  destruct (existsb _ (accesses w)); [now repeat split |].
  destruct (existsb _ (accesses w)); now repeat split.
Qed.

(** [share_file] writes to the grant table and the activity log and to
    nothing else: users, files and clock come back as they were. *)
Lemma share_file_keeps_rest (parse_datetime : string -> option Z)
    (request : Request) (file_id : Z) (w : World) :
  same_users_files_clock w (snd (share_file parse_datetime request file_id w)).
Proof.
  unfold share_file, login_required.
  destruct (req_user request) as [user |]; [| now repeat split].
  unfold bind, get_object_or_404, try_except. cbn beta iota.
  destruct (get (files w) (owned_file file_id user)) as [f | e]; cbn beta iota.
  2:{ destruct (Exn_eqb e DoesNotExist); now repeat split. }
  destruct (negb (String.eqb (visibility f) "restricted")); [now repeat split |].
  destruct (String.eqb (method request) "POST"); [| now repeat split].
  cbn beta iota zeta.
  destruct (get (users w) (verified_with_email (dict_get (POST request) "user_email")))
    as [target | e]; cbn beta iota.
  2:{ destruct (Exn_eqb e DoesNotExist); now repeat split. }
  unfold ret. cbn beta iota.
  set (perm := match dict_get (POST request) "permission" with
               | Some p => p
               | None => "view"%string
               end).
  set (posted := dict_get (POST request) "expires_at").
  pose proof (get_or_create_keeps_rest parse_datetime f target user perm
                posted w) as Hgc.
  destruct (get_or_create parse_datetime f target perm user posted w)
    as [[[a created] | e] w1]; simpl in Hgc; [| exact Hgc].
  destruct created; cbn beta iota delta [negb]; [exact Hgc |].
  pose proof (to_expiry_keeps_world parse_datetime posted w1) as Hkeep.
  destruct (to_expiry parse_datetime posted w1) as [[expiry | e] w2];
    simpl in Hkeep; subst w2; cbn beta iota; [| exact Hgc].
  pose proof (FileAccess_save_keeps_rest (regrant a perm expiry) w1) as Hsave.
  destruct (FileAccess_save (regrant a perm expiry) w1) as [[[] | e] w2];
    simpl in Hsave; cbn beta iota;
    destruct Hgc as [H1 [H2 H3]], Hsave as [H4 [H5 H6]];
    repeat split; simpl; congruence.
Qed.

Lemma to_expiry_reads_no_world (parse_datetime : string -> option Z)
    (posted : option string) (w w' : World) :
  fst (to_expiry parse_datetime posted w') = fst (to_expiry parse_datetime posted w).
Proof.
  unfold to_expiry. destruct posted as [s |]; [| reflexivity].
  destruct (String.eqb s EmptyString); [reflexivity |].
  destruct (parse_datetime s); reflexivity.
Qed.

(** X9: posting the same [share_file] form a second time changes no grant:
    the request succeeds again and the grant table is the one the first
    request left, row for row. *)
Theorem share_file_twice (parse_datetime : string -> option Z)
    (request : Request) (file_id : Z) (w : World)
    (user target : User) (f : UserFile) (expiry : option Z) :
  store_ok w ->
  req_user request = Some user ->
  method request = "POST"%string ->
  get (files w) (owned_file file_id user) = Ok f ->
  visibility f = "restricted"%string ->
  get (users w) (verified_with_email (dict_get (POST request) "user_email"))
  = Ok target ->
  fst (to_expiry parse_datetime (dict_get (POST request) "expires_at") w)
  = Ok expiry ->
  let w1 := snd (share_file parse_datetime request file_id w) in
  let w2 := snd (share_file parse_datetime request file_id w1) in
  fst (share_file parse_datetime request file_id w1)
  = Ok (JsonResponse true ("File shared with " ++ full_name target ++ ".")) /\
  accesses w2 = accesses w1.
Proof.
  intros Hok Hu Hm Hf Hv Ht He w1 w2.
  destruct (share_file_grants parse_datetime request file_id w user target
              f expiry Hok Hu Hm Hf Hv Ht He)
    as [_ [_ [row [Hrow [Hperm Hexp]]]]].
  fold w1 in Hrow.
  pose proof (share_file_keeps_store_ok parse_datetime request file_id w Hok)
    as Hok1.
  destruct (share_file_keeps_rest parse_datetime request file_id w)
    as [Husers [Hfiles _]].
  fold w1 in Hok1, Husers, Hfiles.
  assert (Hf1 : get (files w1) (owned_file file_id user) = Ok f)
    by (now rewrite Hfiles).
  assert (Ht1 : get (users w1)
                  (verified_with_email (dict_get (POST request) "user_email"))
                = Ok target) by (now rewrite Husers).
  assert (He1 : fst (to_expiry parse_datetime
                       (dict_get (POST request) "expires_at") w1) = Ok expiry)
    by (now rewrite (to_expiry_reads_no_world parse_datetime _ w w1)).
  destruct (share_file_regrants parse_datetime request file_id w1 user target
              f row expiry Hok1 Hu Hm Hf1 Hv Ht1 Hrow He1)
    as [Hres [Hrows _]].
  split; [exact Hres |].
  fold w2 in Hrows. rewrite Hrows.
  assert (Hsame : regrant row
                    match dict_get (POST request) "permission" with
                    | Some p => p
                    | None => "view"%string
                    end expiry = row).
  { rewrite <- Hperm, <- Hexp. now destruct row. }
  rewrite Hsame.
  rewrite <- (map_id (accesses w1)) at 2.
  apply map_ext_in. intros r Hr.
  destruct (Z.eqb_spec (access_id r) (access_id row)) as [Heq | Hne];
    [| reflexivity].
  destruct Hok1 as [[Hids _] _].
  apply get_ok in Hrow as [_ [Hin _]].
  symmetry.
  exact (NoDup_map_inj_in access_id (accesses w1) r row Hids Hr Hin Heq).
Qed.

Lemma share_file_twice_witness :
  let w1 := snd (share_file parse share_edit 10 start) in
  let w2 := snd (share_file parse share_edit 10 w1) in
  fst (share_file parse share_edit 10 w1)
  = Ok (JsonResponse true "File shared with Bob B.") /\
  accesses w2 = accesses w1.
Proof.
  intros w1 w2.
  apply (share_file_twice parse share_edit 10 start alice bob
           (report "restricted") (Some 200)); try reflexivity.
  repeat split; simpl; try constructor. intros a [].
Defined.

(** * Who writes through [edit_file] *)

(** X16: [edit_file] changes the store only for a logged-in user who owns the
    file with the requested key, with the method POST and a form that
    validates. *)
Theorem edit_file_guards
    (FileEditForm_clean :
       list (string * string) -> UserFile -> World ->
       option (string * string * option Z * string))
    (request : Request) (file_id : Z) (w : World) :
  snd (edit_file FileEditForm_clean request file_id w) <> w ->
  exists (user : User) (f : UserFile),
    req_user request = Some user /\
    In f (files w) /\ Models.file_id f = file_id /\ owner f = user_id user /\
    method request = "POST"%string /\
    FileEditForm_clean (POST request) f w <> None.
Proof.
  unfold edit_file, login_required.
  destruct (req_user request) as [user |]; [| intros H; now elim H].
  unfold bind, get_object_or_404, try_except, reads. cbn beta iota.
  destruct (get (files w) (owned_file file_id user)) as [f | e] eqn:Hf;
    cbn beta iota.
  2:{ destruct (Exn_eqb e DoesNotExist); intros H; now elim H. }
  destruct (String.eqb (method request) "POST") eqn:Hm;
    [| intros H; now elim H].
  destruct (FileEditForm_clean (POST request) f w) as [[[[n d] c] v] |] eqn:Hc;
    [| intros H; now elim H].
  intros _. exists user, f.
  apply get_ok in Hf as [_ [Hin Hmine]].
  unfold owned_file in Hmine. apply andb_true_iff in Hmine as [Hid Hown].
  apply Z.eqb_eq in Hid, Hown. apply String.eqb_eq in Hm.
  repeat split; try assumption. rewrite Hc. discriminate.
Qed.

Lemma edit_file_guards_witness :
  let w := world "restricted" [] 0 in
  let request := post alice [("name", "mine"); ("visibility", "private")]%string in
  exists (user : User) (f : UserFile),
    req_user request = Some user /\
    In f (files w) /\ Models.file_id f = 10 /\ owner f = user_id user /\
    method request = "POST"%string /\
    clean (POST request) f w <> None.
Proof.
  intros w request.
  apply (edit_file_guards clean request 10 w).
  intros H. apply (f_equal activities) in H. vm_compute in H. discriminate H.
Defined.

(** * Deleting a file *)

Lemma only_post (m : string) : contains ["POST"%string] m = true -> m = "POST"%string.
Proof.
  unfold contains. cbn [existsb]. rewrite orb_false_r.
  intros H. apply String.eqb_eq in H. now symmetry.
Qed.

Lemma In_filter_other {A : Type} (key : A -> Z) (k : Z) (l : list A) (x : A) :
  In x (filter (fun r => negb (key r =? k)) l) <-> In x l /\ key x <> k.
Proof. now rewrite filter_In, negb_true_iff, Z.eqb_neq. Qed.

(** X17: the owner posts [delete_file] and the stored upload is removed: the
    file leaves the table, every grant on it and every activity row about
    it goes with it, the row logged for the deletion included, and the
    rows of other files stay.  No user has a grant on the file any
    more. *)
Theorem delete_file_cascades (remove_upload : UserFile -> bool)
    (request : Request) (file_id : Z) (user : User) (f : UserFile)
    (w : World) :
  req_user request = Some user ->
  method request = "POST"%string ->
  get (files w) (owned_file file_id user) = Ok f ->
  remove_upload f = true ->
  let w' := snd (delete_file remove_upload request file_id w) in
  (forall r, In r (files w') <-> In r (files w) /\ Models.file_id r <> file_id) /\
  (forall a, In a (accesses w') <-> In a (accesses w) /\ access_file a <> file_id) /\
  (forall x, In x (activities w') <->
             In x (activities w) /\ activity_file x <> file_id) /\
  (forall u, find_grant w' f u = Raise DoesNotExist) /\
  users w' = users w.
Proof.
  intros Hu Hm Hf Hrm w'.
  destruct (get_ok _ _ _ Hf) as [_ [_ Hmine]].
  unfold owned_file in Hmine. apply andb_true_iff in Hmine as [Hid _].
  apply Z.eqb_eq in Hid.
  assert (Hrun : w' =
    {| users := users w;
       files := filter (fun r => negb (Models.file_id r =? file_id)) (files w);
       accesses := filter (fun a => negb (access_file a =? file_id)) (accesses w);
       activities :=
         filter (fun x => negb (activity_file x =? file_id))
           (activities w ++
            [{| activity_file := file_id; activity_user := user_id user;
                action := "delete"; ip_address := get_client_ip request |}]);
       next_access_id := next_access_id w;
       clock := clock w |}).
  { subst w'. unfold delete_file, login_required, require_http_methods.
    rewrite Hu, Hm.
    replace (contains ["POST"%string] "POST") with true by reflexivity.
    unfold bind, get_object_or_404, try_except. cbn beta iota.
    rewrite Hf. cbn beta iota. rewrite Hrm.
    unfold FileActivity_create, UserFile_delete, writes. cbn beta iota zeta.
    rewrite Hid. destruct (is_ajax request); reflexivity. }
  rewrite Hrun. simpl.
  split; [intros r; apply In_filter_other |].
  split; [intros a; apply In_filter_other |].
  split; [| split; [| reflexivity]].
  - intros x. rewrite In_filter_other. split.
    + intros [H Hne]. split; [| assumption].
      apply in_app_or in H as [H | [<- | []]]; [assumption | now elim Hne].
    + intros [H Hne]. split; [apply in_or_app; now left | assumption].
  - intros u. unfold find_grant, get. simpl.
    rewrite filter_none; [reflexivity |].
    intros a Ha. apply In_filter_other in Ha as [_ Ha].
    apply Z.eqb_neq in Ha. unfold grant_of.
    now rewrite Hid, Ha.
Qed.

Lemma delete_file_cascades_witness :
  let w := world "restricted" [grant "edit" None] 0 in
  let w' := snd (delete_file (fun _ => true) (post alice []) 10 w) in
  (forall r, In r (files w') <-> In r (files w) /\ Models.file_id r <> 10) /\
  (forall a, In a (accesses w') <-> In a (accesses w) /\ access_file a <> 10) /\
  (forall x, In x (activities w') <->
             In x (activities w) /\ activity_file x <> 10) /\
  (forall u, find_grant w' (report "restricted") u = Raise DoesNotExist) /\
  users w' = users w.
Proof.
  intros w.
  apply (delete_file_cascades (fun _ => true) (post alice []) 10 alice
           (report "restricted") w); reflexivity.
Defined.

(** X18: [delete_file] changes the store only for a logged-in user who owns
    the file with the requested key, with the method POST, and when the
    stored upload could be removed: a failure on the disk leaves every
    table as it was. *)
Theorem delete_file_guards (remove_upload : UserFile -> bool)
    (request : Request) (file_id : Z) (w : World) :
  snd (delete_file remove_upload request file_id w) <> w ->
  exists (user : User) (f : UserFile),
    req_user request = Some user /\
    In f (files w) /\ Models.file_id f = file_id /\ owner f = user_id user /\
    method request = "POST"%string /\
    remove_upload f = true.
Proof.
  unfold delete_file, login_required, require_http_methods.
  destruct (req_user request) as [user |]; [| intros H; now elim H].
  destruct (contains ["POST"%string] (method request)) eqn:Hm;
    [| intros H; now elim H].
  unfold bind, get_object_or_404, try_except. cbn beta iota.
  destruct (get (files w) (owned_file file_id user)) as [f | e] eqn:Hf;
    cbn beta iota.
  2:{ destruct (Exn_eqb e DoesNotExist); intros H; now elim H. }
  destruct (remove_upload f) eqn:Hrm.
  2:{ destruct (is_ajax request); intros H; now elim H. }
  intros _. exists user, f.
  apply get_ok in Hf as [_ [Hin Hmine]].
  unfold owned_file in Hmine. apply andb_true_iff in Hmine as [Hid Hown].
  apply Z.eqb_eq in Hid, Hown. apply only_post in Hm.
  now repeat split.
Qed.

Lemma delete_file_guards_witness :
  let w := world "restricted" [] 0 in
  exists (user : User) (f : UserFile),
    req_user (post alice []) = Some user /\
    In f (files w) /\ Models.file_id f = 10 /\ owner f = user_id user /\
    method (post alice []) = "POST"%string /\
    (fun _ : UserFile => true) f = true.
Proof.
  intros w.
  apply (delete_file_guards (fun _ => true) (post alice []) 10 w).
  intros H. apply (f_equal files) in H. vm_compute in H. discriminate H.
Defined.
